(** * docs/ocr_pdf.py: PDF OCR through an Ollama vision model

    A shallow embedding of the script [src/docs/ocr_pdf.py] and the proofs of
    the properties its specification states.

    The script is a linear pipeline: check that the input exists, render the
    PDF into page images, encode every page as base64 of its PNG bytes, POST
    it to the inference server, collect one labelled block per page that
    produced text, and write the joined blocks to a file or to standard
    output.

    External collaborators (pathlib, pdf2image, PIL, requests, the server)
    are an explicit environment record [Env]; the file system and the
    standard output of the machine, which may refuse a write, are a record
    [Host]; everything the process does to the outside is recorded in a
    [World]. *)

From Stdlib Require Import NArith ZArith Lia.
From Stdlib Require Import Strings.Ascii Strings.String Strings.Byte.
From stdpp Require Import base option list sorting strings gmap pretty.

Local Open Scope string_scope.
Local Open Scope list_scope.

(** ** base64 (the standard alphabet of RFC 4648, with padding)

    [base64.b64encode] works on groups of three bytes: the 24 bits of a group
    are cut into four sextets and every sextet indexes the alphabet; a last
    group of one or two bytes is padded with [=]. *)

Module Base64.

Local Open Scope N_scope.

Definition alphabet : string :=
  "ABCDEFGHIJKLMNOPQRSTUVWXYZabcdefghijklmnopqrstuvwxyz0123456789+/".

Definition pad : ascii := "="%char.

(** The character of a sextet: a lookup in the alphabet. *)
Definition b2a (n : N) : ascii :=
  match String.get (N.to_nat n) alphabet with
  | Some c => c
  | None => pad
  end.

(** The sextet of a character, if it belongs to the alphabet. *)
Definition a2b (c : ascii) : option N :=
  let n := N_of_ascii c in
  if (65 <=? n) && (n <=? 90) then Some (n - 65)
  else if (97 <=? n) && (n <=? 122) then Some (n - 71)
  else if (48 <=? n) && (n <=? 57) then Some (n + 4)
  else if n =? 43 then Some 62
  else if n =? 47 then Some 63
  else None.

(** The check that [a2b] inverts [b2a] at the index [k] and that the
    character there is not the padding. *)
Definition alphabet_ok (k : nat) : bool :=
  match a2b (b2a (N.of_nat k)) with
  | Some m => (m =? N.of_nat k) && negb (Ascii.eqb (b2a (N.of_nat k)) pad)
  | None => false
  end.

(** The four sextets of the group [x y z]. *)
Definition sextet0 (x : N) : N := N.shiftr x 2.
Definition sextet1 (x y : N) : N :=
  N.lor (N.shiftl (N.land x 3) 4) (N.shiftr y 4).
Definition sextet2 (y z : N) : N :=
  N.lor (N.shiftl (N.land y 15) 2) (N.shiftr z 6).
Definition sextet3 (z : N) : N := N.land z 63.

(** The three octets of the sextets [p q r s]. *)
Definition octet0 (p q : N) : N := N.lor (N.shiftl p 2) (N.shiftr q 4).
Definition octet1 (q r : N) : N :=
  N.lor (N.shiftl (N.land q 15) 4) (N.shiftr r 2).
Definition octet2 (r s : N) : N := N.lor (N.shiftl (N.land r 3) 6) s.

Fixpoint b64encode (bs : list byte) : string :=
  match bs with
  | [] => ""
  | [a] =>
      let x := Byte.to_N a in
      String (b2a (sextet0 x))
        (String (b2a (sextet1 x 0)) (String pad (String pad "")))
  | [a; b] =>
      let x := Byte.to_N a in
      let y := Byte.to_N b in
      String (b2a (sextet0 x))
        (String (b2a (sextet1 x y))
           (String (b2a (sextet2 y 0)) (String pad "")))
  | a :: b :: c :: rest =>
      let x := Byte.to_N a in
      let y := Byte.to_N b in
      let z := Byte.to_N c in
      String (b2a (sextet0 x))
        (String (b2a (sextet1 x y))
           (String (b2a (sextet2 y z))
              (String (b2a (sextet3 z)) (b64encode rest))))
  end.

(** Strict decoding: the text is a sequence of groups of four characters of
    the alphabet; only the last group may end in one or two [=]. *)
Fixpoint b64decode (s : string) : option (list byte) :=
  match s with
  | "" => Some []
  | String c0 (String c1 (String c2 (String c3 rest))) =>
      p ← a2b c0;
      q ← a2b c1;
      a ← Byte.of_N (octet0 p q);
      if Ascii.eqb c3 pad then
        match rest with
        | "" =>
            if Ascii.eqb c2 pad then Some [a]
            else
              r ← a2b c2;
              b ← Byte.of_N (octet1 q r);
              Some [a; b]
        | _ => None
        end
      else
        r ← a2b c2;
        s3 ← a2b c3;
        b ← Byte.of_N (octet1 q r);
        c ← Byte.of_N (octet2 r s3);
        tl ← b64decode rest;
        Some (a :: b :: c :: tl)
  | _ => None
  end.

End Base64.

(** ** Python values, exceptions and the process monad *)

(** The line terminator: the one character of Python's ["\n"]. *)
Definition nl : string := String "010"%char "".

(** A value of the ["response"] field of a parsed JSON body. The script
    tests such a value for truth ([if text:]) and formats it into an
    f-string; of a value that is neither [None] nor a [str] (a number, a
    boolean, an array, an object) the model keeps those two observations:
    its truth value and its [str()]. *)
Inductive pyval : Type :=
  | PyNone
  | PyStr (s : string)
  | PyOther (truth : bool) (shown : string).

(** [bool(v)]. *)
Definition truthy (v : pyval) : bool :=
  match v with
  | PyNone => false
  | PyStr s => negb (String.eqb s "")
  | PyOther t _ => t
  end.

(** [str(v)], what [{v}] in an f-string inserts. *)
Definition py_str (v : pyval) : string :=
  match v with
  | PyNone => "None"
  | PyStr s => s
  | PyOther _ shown => shown
  end.

(** A computation that raises an exception (kept as its [str()]) or
    returns. *)
Inductive raises (A : Type) : Type :=
  | Raised (e : string)
  | Returned (a : A).
Arguments Raised {A} e.
Arguments Returned {A} a.

#[global] Instance raises_ret : MRet raises := fun A a => Returned a.
#[global] Instance raises_bind : MBind raises := fun A B f m =>
  match m with
  | Raised e => Raised e
  | Returned a => f a
  end.

(** What [response.json()] parsed: a dict, or a value of another type
    (named as Python's [type(v).__name__] does). *)
Inductive json_body : Type :=
  | BodyDict (d : gmap string pyval)
  | BodyOther (type_name : string).

(** [body.get(key, default)]: only a dict has the method. *)
Definition body_get (body : json_body) (key : string) (default : pyval)
  : raises pyval :=
  match body with
  | BodyDict d =>
      Returned (match d !! key with Some v => v | None => default end)
  | BodyOther ty =>
      Raised ("'" +:+ ty +:+ "' object has no attribute 'get'")
  end.

(** A [requests.Response]. *)
Record Response : Type := {
  status_code : Z;
  reason : string;
  url : string;
  json : raises json_body
}.

(** [Response.raise_for_status] of the requests library: an [HTTPError] for
    a status from 400 to 599, nothing otherwise. *)
Definition raise_for_status (r : Response) : raises unit :=
  if ((400 <=? status_code r) && (status_code r <? 500))%Z then
    Raised (pretty (status_code r) +:+ " Client Error: " +:+ reason r
              +:+ " for url: " +:+ url r)
  else if ((500 <=? status_code r) && (status_code r <? 600))%Z then
    Raised (pretty (status_code r) +:+ " Server Error: " +:+ reason r
              +:+ " for url: " +:+ url r)
  else Returned tt.

(** A value of the request payload. *)
Inductive payload_value : Type :=
  | VStr (s : string)
  | VBool (b : bool)
  | VList (l : list string).

(** One call [requests.post(url, json=payload, headers=headers)]. *)
Record Request : Type := {
  req_method : string;
  req_url : string;
  req_json : gmap string payload_value;
  req_headers : gmap string string
}.

(** A PIL image, seen through the one observation the script makes of it:
    the bytes [image.save(buffered, format="PNG")] writes. *)
Record Image : Type := { png : list byte }.

(** The collaborators of the script: [path_text p] is [str(Path(p))],
    [path_exists p] is [Path(p).exists()], [convert_from_path] is the
    renderer of pdf2image, and [post n req] is the outcome of the call
    number [n] (from 0) of [requests.post], which raises on a transport
    error and returns the server's response otherwise. *)
Record Env : Type := {
  path_text : string -> string;
  path_exists : string -> bool;
  convert_from_path : string -> raises (list Image);
  post : nat -> Request -> raises Response
}.

(** The machine the script runs on, where its output goes. [host_open p] is
    the outcome of [open(p, 'w')], which raises for a missing directory or a
    path that may not be written; [host_write p content] is the outcome of
    [f.write(content)] and of closing the file, which raises when the text
    cannot be encoded; [host_print s] is the outcome of [print(s)] on
    [sys.stdout], which raises for the same reason. [host_traceback e] is
    what the interpreter prints, after the heading of a traceback, for an
    exception [e] that nothing caught. *)
Record Host : Type := {
  host_open : string -> raises unit;
  host_write : string -> string -> raises unit;
  host_print : string -> raises unit;
  host_traceback : string -> string
}.

(** What the process did: the chunks written to the two streams, the files
    it wrote (path to content), the calls of the renderer and of the HTTP
    client. *)
Record World : Type := {
  stderr : list string;
  stdout : list string;
  files : gmap string string;
  rendered : list string;
  posted : list Request
}.

Definition initial : World :=
  {| stderr := []; stdout := []; files := ∅; rendered := []; posted := [] |}.


(** A step of the process ends with a value or with [sys.exit(code)]. *)
Inductive outcome (A : Type) : Type :=
  | Done (a : A)
  | Exited (code : Z).
Arguments Done {A} a.
Arguments Exited {A} code.

Definition M (A : Type) : Type := World -> outcome A * World.

#[global] Instance M_ret : MRet M := fun A a w => (Done a, w).
#[global] Instance M_bind : MBind M := fun A B f m w =>
  match m w with
  | (Done a, w') => f a w'
  | (Exited code, w') => (Exited code, w')
  end.

(** The exit status of the process: 0 when [main] returns. *)
Definition exit_status {A} (r : outcome A * World) : Z :=
  match r.1 with
  | Done _ => 0
  | Exited code => code
  end.

(** [print(s, file=sys.stderr)]. The error handler of [sys.stderr] is
    [backslashreplace]: every text can be written to it. *)
Definition print_stderr (s : string) : M unit := fun w =>
  (Done tt,
   {| stderr := stderr w ++ [s +:+ nl]; stdout := stdout w; files := files w;
      rendered := rendered w; posted := posted w |}).

(** [file.write(s)] on the two streams, as argparse does for its texts. *)
Definition stderr_write (s : string) : M unit := fun w =>
  (Done tt,
   {| stderr := stderr w ++ [s]; stdout := stdout w; files := files w;
      rendered := rendered w; posted := posted w |}).

Definition stdout_write (s : string) : M unit := fun w =>
  (Done tt,
   {| stderr := stderr w; stdout := stdout w ++ [s]; files := files w;
      rendered := rendered w; posted := posted w |}).

(** [print(s)]: the text and the line terminator reach [stdout], or the
    call raises and nothing does. *)
Definition print_stdout (host : Host) (s : string) : M (raises unit) :=
  fun w =>
  match host_print host s with
  | Raised e => (Done (Raised e), w)
  | Returned _ =>
      (Done (Returned tt),
       {| stderr := stderr w; stdout := stdout w ++ [s +:+ nl];
          files := files w; rendered := rendered w; posted := posted w |})
  end.

(** [with open(path, 'w') as f: f.write(content)]. When [open] raises the
    file is not touched; once it is open the file is empty, and it stays
    empty when the write raises. *)
Definition write_file (host : Host) (path content : string)
  : M (raises unit) := fun w =>
  match host_open host path with
  | Raised e => (Done (Raised e), w)
  | Returned _ =>
      match host_write host path content with
      | Raised e =>
          (Done (Raised e),
           {| stderr := stderr w; stdout := stdout w;
              files := <[path := ""]> (files w);
              rendered := rendered w; posted := posted w |})
      | Returned _ =>
          (Done (Returned tt),
           {| stderr := stderr w; stdout := stdout w;
              files := <[path := content]> (files w);
              rendered := rendered w; posted := posted w |})
      end
  end.

Definition sys_exit {A} (code : Z) : M A := fun w => (Exited code, w).

(** An exception that reaches the top of the script: the interpreter prints
    the traceback to [stderr] and the process exits with status 1. *)
Definition uncaught {A} (host : Host) (e : string) : M A := fun w =>
  (Exited 1,
   {| stderr := stderr w ++
                ["Traceback (most recent call last):" +:+ nl
                   +:+ host_traceback host e];
      stdout := stdout w; files := files w; rendered := rendered w;
      posted := posted w |}).

(** A call that stands outside every [try]. *)
Definition unhandled {A} (host : Host) (call : M (raises A)) : M A :=
  attempt ← call;
  match attempt with
  | Returned a => mret a
  | Raised e => uncaught host e
  end.

(** The two library calls, with the call recorded. *)
Definition call_convert_from_path (env : Env) (path : string)
  : M (raises (list Image)) := fun w =>
  (Done (convert_from_path env path),
   {| stderr := stderr w; stdout := stdout w; files := files w;
      rendered := rendered w ++ [path]; posted := posted w |}).

Definition requests_post (env : Env) (url : string)
    (payload : gmap string payload_value) (headers : gmap string string)
  : M (raises Response) := fun w =>
  let req := {| req_method := "POST"; req_url := url; req_json := payload;
                req_headers := headers |} in
  (Done (post env (length (posted w)) req),
   {| stderr := stderr w; stdout := stdout w; files := files w;
      rendered := rendered w; posted := posted w ++ [req] |}).

(** ** The script *)

Definition convert_pdf_to_images (env : Env) (pdf_path : string)
  : M (list Image) :=
  attempt ← call_convert_from_path env pdf_path;
  match attempt with
  | Returned images => mret images
  | Raised e =>
      print_stderr ("Error converting PDF: " +:+ e);;
      sys_exit 1
  end.

(** The base64 text is ASCII, so [.decode('utf-8')] gives its characters
    one by one: [Base64.b64encode] returns them as a [string]. *)
Definition image_to_base64 (image : Image) : string :=
  let buffered := png image in
  Base64.b64encode buffered.

Definition prompt : string :=
  "Extract and return all text from this image. Provide only the text content without any additional commentary.".

Definition ocr_image_with_ollama (env : Env)
    (base64_image model server_url : string) : M pyval :=
  let payload : gmap string payload_value :=
    <["model" := VStr model]>
      (<["prompt" := VStr prompt]>
         (<["stream" := VBool false]>
            (<["images" := VList [base64_image]]> ∅))) in
  attempt ← requests_post env server_url payload
              {["Content-Type" := "application/json"]};
  match (response ← attempt;
         raise_for_status response;;
         body ← json response;
         body_get body "response" (PyStr "")) with
  | Returned text => mret text
  | Raised e =>
      print_stderr ("Error calling Ollama API: " +:+ e);;
      mret PyNone
  end.

(** The command line after [argparse]; [output] is [None] without
    [--output]. *)
Record Args : Type := {
  pdf_file : string;
  model : string;
  server : string;
  output : option string
}.

Definition default_model : string := "gemma3:27b".
Definition default_server : string :=
  "http://10.147.17.205:11434/api/generate".

(** The loop of [main] over [enumerate(images, 1)], from page [i] on;
    [total] is [len(images)]. *)
Fixpoint process_pages (env : Env) (args : Args) (total i : nat)
    (images : list Image) (all_text : list string) : M (list string) :=
  match images with
  | [] => mret all_text
  | image :: rest =>
      print_stderr ("Processing page " +:+ pretty i +:+ "/" +:+ pretty total
                      +:+ "...");;
      let base64_image := image_to_base64 image in
      text ← ocr_image_with_ollama env base64_image (model args) (server args);
      all_text' ←
        (if truthy text then
           mret (all_text ++
                 ["--- Page " +:+ pretty i +:+ " ---" +:+ nl
                    +:+ py_str text +:+ nl])
         else
           print_stderr ("Warning: No text extracted from page " +:+ pretty i);;
           mret all_text);
      process_pages env args total (S i) rest all_text'
  end.

(** [if args.output:] holds for a path that is given and not empty. *)
Definition output_file (args : Args) : option string :=
  match output args with
  | Some path => if String.eqb path "" then None else Some path
  | None => None
  end.

(** [main] up to [result = "\n".join(all_text)]. *)
Definition main_result (env : Env) (args : Args) : M string :=
  let pdf_path := pdf_file args in
  (if negb (path_exists env pdf_path) then
     print_stderr ("Error: File '" +:+ path_text env pdf_path +:+ "' not found");;
     sys_exit 1
   else mret tt);;
  print_stderr "Converting PDF to images...";;
  images ← convert_pdf_to_images env pdf_path;
  print_stderr ("Processing " +:+ pretty (length images) +:+ " page(s)...");;
  all_text ← process_pages env args (length images) 1 images [];
  mret (String.concat nl all_text).

(** What [parser.parse_args()] makes of the command line: the arguments,
    or one of the two exits of argparse. A command line it rejects gets the
    usage and the error message on [stderr] and exit status 2; [-h] gets
    the help text on [stdout] and exit status 0. *)
Inductive cmdline : Type :=
  | Parsed (args : Args)
  | Rejected (usage message : string)
  | Help (text : string).

Definition parse_args (cmd : cmdline) : M Args :=
  match cmd with
  | Parsed args => mret args
  | Rejected usage message =>
      stderr_write usage;;
      stderr_write message;;
      sys_exit 2
  | Help text =>
      stdout_write text;;
      sys_exit 0
  end.

(** [main]. The write of the result (lines 92 to 97) stands outside every
    [try]. *)
Definition main (host : Host) (env : Env) (cmd : cmdline) : M unit :=
  args ← parse_args cmd;
  result ← main_result env args;
  match output_file args with
  | Some path =>
      unhandled host (write_file host path result);;
      print_stderr ("Output written to " +:+ path)
  | None => unhandled host (print_stdout host result)
  end.

(** ** The run in closed form

    Pure functions that say what the monadic code above computes; the
    lemmas [ocr_image_with_ollama_run], [process_pages_run] and
    [main_result_run] below prove that they do. *)

(** The request [ocr_image_with_ollama] sends. *)
Definition ollama_request (base64_image model server_url : string)
  : Request :=
  {| req_method := "POST";
     req_url := server_url;
     req_json :=
       <["model" := VStr model]>
         (<["prompt" := VStr prompt]>
            (<["stream" := VBool false]>
               (<["images" := VList [base64_image]]> ∅)));
     req_headers := {["Content-Type" := "application/json"]} |}.

(** The body of the [try] after [requests.post]. *)
Definition response_text (attempt : raises Response) : raises pyval :=
  response ← attempt;
  raise_for_status response;;
  body ← json response;
  body_get body "response" (PyStr "").

(** What the client returns, and what it prints. *)
Definition client_result (attempt : raises Response) : pyval :=
  match response_text attempt with
  | Returned text => text
  | Raised _ => PyNone
  end.

Definition client_log (attempt : raises Response) : list string :=
  match response_text attempt with
  | Returned _ => []
  | Raised e => [("Error calling Ollama API: " +:+ e) +:+ nl]
  end.

(** The call failed in transport, or the server answered with a status
    that [raise_for_status] rejects. *)
Definition http_failure (attempt : raises Response) : bool :=
  match attempt with
  | Raised _ => true
  | Returned r =>
      match raise_for_status r with
      | Raised _ => true
      | Returned _ => false
      end
  end.

(** The request for one page and the outcomes of the calls for the pages
    [images], the first of which is call number [n]. *)
Definition page_request (args : Args) (image : Image) : Request :=
  ollama_request (image_to_base64 image) (model args) (server args).

Fixpoint attempts (env : Env) (args : Args) (n : nat) (images : list Image)
  : list (raises Response) :=
  match images with
  | [] => []
  | image :: rest =>
      post env n (page_request args image) :: attempts env args (S n) rest
  end.

(** The block of page [i], if its text is true. *)
Definition page_block (i : nat) (text : pyval) : option string :=
  if truthy text then
    Some ("--- Page " +:+ pretty i +:+ " ---" +:+ nl +:+ py_str text +:+ nl)
  else None.

Definition page_warning (i : nat) : string :=
  ("Warning: No text extracted from page " +:+ pretty i) +:+ nl.

(** [enumerate(texts, i)] and the blocks of numbered texts. *)
Definition numbered (i : nat) (texts : list pyval) : list (nat * pyval) :=
  zip (seq i (length texts)) texts.

Definition blocks (pages : list (nat * pyval)) : list string :=
  omap (fun p => page_block p.1 p.2) pages.

(** What one page, and the pages from [i] on, print to [stderr]. *)
Definition page_log (total i : nat) (attempt : raises Response)
  : list string :=
  [("Processing page " +:+ pretty i +:+ "/" +:+ pretty total +:+ "...") +:+ nl]
    ++ client_log attempt
    ++ (if truthy (client_result attempt) then [] else [page_warning i]).

Fixpoint pages_log (total i : nat) (atts : list (raises Response))
  : list string :=
  match atts with
  | [] => []
  | att :: rest => page_log total i att ++ pages_log total (S i) rest
  end.

(** The texts of the pages of a run, and its result. *)
Definition page_texts (env : Env) (args : Args) (images : list Image)
  : list pyval :=
  map client_result (attempts env args 0 images).

Definition final_text (env : Env) (args : Args) (images : list Image)
  : string :=
  String.concat nl (blocks (numbered 1 (page_texts env args images))).

(** What the end of [main] does with the result, in the world [w] that the
    pipeline left. *)
Definition delivered (host : Host) (args : Args) (result : string)
    (w : World) : outcome unit * World :=
  match output_file args with
  | Some path =>
      match host_open host path with
      | Raised e => uncaught host e w
      | Returned _ =>
          match host_write host path result with
          | Raised e =>
              uncaught host e
                {| stderr := stderr w; stdout := stdout w;
                   files := <[path := ""]> (files w);
                   rendered := rendered w; posted := posted w |}
          | Returned _ =>
              (Done tt,
               {| stderr := stderr w ++
                            [("Output written to " +:+ path) +:+ nl];
                  stdout := stdout w;
                  files := <[path := result]> (files w);
                  rendered := rendered w; posted := posted w |})
          end
      end
  | None =>
      match host_print host result with
      | Raised e => uncaught host e w
      | Returned _ =>
          (Done tt,
           {| stderr := stderr w; stdout := stdout w ++ [result +:+ nl];
              files := files w; rendered := rendered w;
              posted := posted w |})
      end
  end.

Definition returns {A} (r : raises A) : bool :=
  match r with
  | Returned _ => true
  | Raised _ => false
  end.

(** The sink that [args] names takes [result]: the file opens and the write
    returns, or [print] returns. *)
Definition accepts (host : Host) (args : Args) (result : string) : bool :=
  match output_file args with
  | Some path =>
      returns (host_open host path) && returns (host_write host path result)
  | None => returns (host_print host result)
  end.

(** The same command line with another [--output]. *)
Definition with_output (args : Args) (o : option string) : Args :=
  {| pdf_file := pdf_file args; model := model args; server := server args;
     output := o |}.

(** ** Sample runs

    A document of two pages and three servers: one reads "Hello" on page 1
    and nothing on page 2, one omits the field for page 2, one answers the
    request for page 2 with status 500. A third call would not connect. *)

Definition sample_images : list Image :=
  [ {| png := ["M"%byte; "a"%byte; "n"%byte] |}; {| png := ["M"%byte] |} ].

Definition ok_response (d : gmap string pyval) : Response :=
  {| status_code := 200; reason := "OK"; url := default_server;
     json := Returned (BodyDict d) |}.

Definition error_response : Response :=
  {| status_code := 500; reason := "Internal Server Error";
     url := default_server; json := Raised "Expecting value" |}.

Definition sample_env (page2 : Response) : Env :=
  {| path_text := fun p => p;
     path_exists := fun p => String.eqb p "doc.pdf";
     convert_from_path := fun _ => Returned sample_images;
     post := fun n _ =>
       match n with
       | 0 => Returned (ok_response {["response" := PyStr "Hello"]})
       | 1 => Returned page2
       | _ => Raised "Connection refused"
       end |}.

Definition empty_env : Env :=
  sample_env (ok_response {["response" := PyStr ""]}).
Definition omitted_env : Env := sample_env (ok_response ∅).
Definition failing_env : Env := sample_env error_response.

Definition sample_args (o : option string) : Args :=
  {| pdf_file := "doc.pdf"; model := default_model; server := default_server;
     output := o |}.

Definition missing_args : Args :=
  {| pdf_file := "missing.pdf"; model := default_model;
     server := default_server; output := Some "out.txt" |}.

Definition hello_page : string := "--- Page 1 ---" +:+ nl +:+ "Hello" +:+ nl.

(** ** Sample hosts *)

(** A host that takes every write. *)
Definition sample_host : Host :=
  {| host_open := fun _ => Returned tt;
     host_write := fun _ _ => Returned tt;
     host_print := fun _ => Returned tt;
     host_traceback := fun e => e +:+ nl |}.

(** A host without the directory "nodir", whose file "ascii.txt" takes no
    text but the empty one, and whose standard output is a closed
    descriptor. *)
Definition strict_host : Host :=
  {| host_open := fun p =>
       if String.eqb p "nodir/out.txt" then
         Raised "[Errno 2] No such file or directory: 'nodir/out.txt'"
       else Returned tt;
     host_write := fun p content =>
       if String.eqb p "ascii.txt" && negb (String.eqb content "") then
         Raised "'ascii' codec can't encode character"
       else Returned tt;
     host_print := fun _ => Raised "[Errno 9] Bad file descriptor";
     host_traceback := fun e => e +:+ nl |}.

(** A server that answers page 1 with status 304 and a JSON object. *)
Definition redirect_env : Env :=
  {| path_text := fun p => p;
     path_exists := fun _ => true;
     convert_from_path := fun _ => Returned sample_images;
     post := fun n _ =>
       match n with
       | 0 => Returned {| status_code := 304; reason := "Not Modified";
                          url := default_server;
                          json := Returned (BodyDict
                                              {["response" := PyStr "Hello"]}) |}
       | _ => Returned (ok_response {["response" := PyStr ""]})
       end |}.

(** A server that fails the request of page 1 and reads page 2. *)
Definition first_fails_env : Env :=
  {| path_text := fun p => p;
     path_exists := fun _ => true;
     convert_from_path := fun _ => Returned sample_images;
     post := fun n _ =>
       match n with
       | 0 => Returned error_response
       | _ => Returned (ok_response {["response" := PyStr "World"]})
       end |}.

(** ** More sample runs *)

(** A renderer that fails on every document. *)
Definition broken_env : Env :=
  {| path_text := fun p => p;
     path_exists := fun _ => true;
     convert_from_path := fun _ => Raised "Unable to get page count.";
     post := fun _ _ => Raised "Connection refused" |}.

(** A document of one page whose request gets [answer]. *)
Definition single_env (answer : raises Response) : Env :=
  {| path_text := fun p => p;
     path_exists := fun _ => true;
     convert_from_path := fun _ => Returned [ {| png := ["M"%byte] |} ];
     post := fun _ _ => answer |}.

(** A response with status 200 whose body is [body]. *)
Definition body_response (body : raises json_body) : Response :=
  {| status_code := 200; reason := "OK"; url := default_server;
     json := body |}.

(** A world in which something was written before: chunks on the two
    streams and two files, one of them at "out.txt". *)
Definition used_world : World :=
  {| stderr := ["earlier" +:+ nl]; stdout := ["printed" +:+ nl];
     files := {["out.txt" := "old"; "other.txt" := "kept"]};
     rendered := []; posted := [] |}.

(** The characters of base64 text: the alphabet and the padding. *)
Definition b64_char (c : ascii) : bool :=
  match Base64.a2b c with
  | Some _ => true
  | None => Ascii.eqb c Base64.pad
  end.

(** * Properties *)

Example b64encode_Man :
  Base64.b64encode ["M"%byte; "a"%byte; "n"%byte] = "TWFu".
Proof. reflexivity. Qed.

Example b64encode_Ma :
  Base64.b64encode ["M"%byte; "a"%byte] = "TWE=".
Proof. reflexivity. Qed.

Example b64encode_M :
  Base64.b64encode ["M"%byte] = "TQ==".
Proof. reflexivity. Qed.

Example failing_run_stderr :
  stderr (main sample_host failing_env (Parsed (sample_args None)) initial).2 =
  [ "Converting PDF to images..." +:+ nl;
    "Processing 2 page(s)..." +:+ nl;
    "Processing page 1/2..." +:+ nl;
    "Processing page 2/2..." +:+ nl;
    "Error calling Ollama API: 500 Server Error: Internal Server Error for url: http://10.147.17.205:11434/api/generate" +:+ nl;
    "Warning: No text extracted from page 2" +:+ nl ].
Proof. vm_compute. reflexivity. Qed.

Example sample_run_to_file :
  main sample_host empty_env (Parsed (sample_args (Some "out.txt"))) initial =
  (Done tt,
   {| stderr :=
        [ "Converting PDF to images..." +:+ nl;
          "Processing 2 page(s)..." +:+ nl;
          "Processing page 1/2..." +:+ nl;
          "Processing page 2/2..." +:+ nl;
          "Warning: No text extracted from page 2" +:+ nl;
          "Output written to out.txt" +:+ nl ];
      stdout := [];
      files := {["out.txt" := hello_page]};
      rendered := ["doc.pdf"];
      posted :=
        [ ollama_request "TWFu" default_model default_server;
          ollama_request "TQ==" default_model default_server ] |}).
Proof. vm_compute. reflexivity. Qed.

Example missing_directory_run :
  main strict_host empty_env (Parsed (sample_args (Some "nodir/out.txt")))
    initial =
  (Exited 1,
   {| stderr :=
        [ "Converting PDF to images..." +:+ nl;
          "Processing 2 page(s)..." +:+ nl;
          "Processing page 1/2..." +:+ nl;
          "Processing page 2/2..." +:+ nl;
          "Warning: No text extracted from page 2" +:+ nl;
          "Traceback (most recent call last):" +:+ nl +:+
          "[Errno 2] No such file or directory: 'nodir/out.txt'" +:+ nl ];
      stdout := [];
      files := ∅;
      rendered := ["doc.pdf"];
      posted :=
        [ ollama_request "TWFu" default_model default_server;
          ollama_request "TQ==" default_model default_server ] |}).
Proof. vm_compute. reflexivity. Qed.

Example rejected_command_line :
  main sample_host empty_env
    (Rejected
       ("usage: ocr_pdf.py [-h] [--model MODEL] [--server SERVER] [--output OUTPUT] pdf_file" +:+ nl)
       ("ocr_pdf.py: error: the following arguments are required: pdf_file" +:+ nl))
    initial =
  (Exited 2,
   {| stderr :=
        [ "usage: ocr_pdf.py [-h] [--model MODEL] [--server SERVER] [--output OUTPUT] pdf_file" +:+ nl;
          "ocr_pdf.py: error: the following arguments are required: pdf_file" +:+ nl ];
      stdout := []; files := ∅; rendered := []; posted := [] |}).
Proof. reflexivity. Qed.

Example b64decode_TWE :
  Base64.b64decode "TWE=" = Some ["M"%byte; "a"%byte].
Proof. reflexivity. Qed.

(** ** base64: decoding inverts encoding *)

Module Base64Facts.
Import Base64.
Local Open Scope N_scope.

(** On disjoint bit ranges [lor] is addition. *)
Lemma lor_shiftl_small (a b k : N) :
  b < 2 ^ k -> N.lor (N.shiftl a k) b = a * 2 ^ k + b.
Proof.
  intros Hb.
  assert (Hdisj : N.land (N.shiftl a k) b = 0).
  { apply N.bits_inj. intros n. rewrite N.land_spec, N.bits_0.
    destruct (N.lt_ge_cases n k) as [Hlt | Hge].
    - rewrite N.shiftl_spec_low by assumption. reflexivity.
    - rewrite <- (N.mod_small b (2 ^ k)) by assumption.
      rewrite N.mod_pow2_bits_high by assumption.
      apply andb_false_r. }
  rewrite <- N.lxor_lor by assumption.
  rewrite <- N.add_nocarry_lxor by assumption.
  rewrite N.shiftl_mul_pow2. reflexivity.
Qed.

Ltac pow2_consts :=
  change (2 ^ 2) with 4 in *; change (2 ^ 4) with 16 in *;
  change (2 ^ 6) with 64 in *.

Ltac divmod := pow2_consts; zify; Z.to_euclidean_division_equations; lia.

Ltac masks :=
  change 3 with (N.ones 2); change 15 with (N.ones 4);
  change 63 with (N.ones 6); rewrite ?N.land_ones.

Lemma sextet0_arith x : sextet0 x = x / 4.
Proof. unfold sextet0. rewrite N.shiftr_div_pow2. reflexivity. Qed.

Lemma sextet1_arith x y : y < 256 -> sextet1 x y = (x mod 4) * 16 + y / 16.
Proof.
  intros Hy. unfold sextet1. masks.
  rewrite N.shiftr_div_pow2, lor_shiftl_small by divmod. reflexivity.
Qed.

Lemma sextet2_arith y z : z < 256 -> sextet2 y z = (y mod 16) * 4 + z / 64.
Proof.
  intros Hz. unfold sextet2. masks.
  rewrite N.shiftr_div_pow2, lor_shiftl_small by divmod. reflexivity.
Qed.

Lemma sextet3_arith z : sextet3 z = z mod 64.
Proof. unfold sextet3. masks. reflexivity. Qed.

Lemma octet0_arith p q : q < 64 -> octet0 p q = p * 4 + q / 16.
Proof.
  intros Hq. unfold octet0.
  rewrite N.shiftr_div_pow2, lor_shiftl_small by divmod. reflexivity.
Qed.

Lemma octet1_arith q r : r < 64 -> octet1 q r = (q mod 16) * 16 + r / 4.
Proof.
  intros Hr. unfold octet1. masks.
  rewrite N.shiftr_div_pow2, lor_shiftl_small by divmod. reflexivity.
Qed.

Lemma octet2_arith r s : s < 64 -> octet2 r s = (r mod 4) * 64 + s.
Proof.
  intros Hs. unfold octet2. masks.
  rewrite lor_shiftl_small by divmod. reflexivity.
Qed.

(** Every sextet of a group of bytes is an index of the alphabet. *)
Lemma sextet0_lt x : x < 256 -> sextet0 x < 64.
Proof. intros. rewrite sextet0_arith. divmod. Qed.

Lemma sextet1_lt x y : y < 256 -> sextet1 x y < 64.
Proof. intros. rewrite sextet1_arith by assumption. divmod. Qed.

Lemma sextet2_lt y z : z < 256 -> sextet2 y z < 64.
Proof. intros. rewrite sextet2_arith by assumption. divmod. Qed.

Lemma sextet3_lt z : sextet3 z < 64.
Proof. rewrite sextet3_arith. divmod. Qed.

(** The octets of the sextets of a group are the group. *)
Lemma octet0_sextets x y :
  x < 256 -> y < 256 -> octet0 (sextet0 x) (sextet1 x y) = x.
Proof.
  intros Hx Hy. rewrite octet0_arith by (apply sextet1_lt; assumption).
  rewrite sextet0_arith, sextet1_arith by assumption. divmod.
Qed.

Lemma octet1_sextets x y z :
  y < 256 -> z < 256 -> octet1 (sextet1 x y) (sextet2 y z) = y.
Proof.
  intros Hy Hz. rewrite octet1_arith by (apply sextet2_lt; assumption).
  rewrite sextet1_arith, sextet2_arith by assumption. divmod.
Qed.

Lemma octet2_sextets y z :
  z < 256 -> octet2 (sextet2 y z) (sextet3 z) = z.
Proof.
  intros Hz. rewrite octet2_arith by apply sextet3_lt.
  rewrite sextet2_arith, sextet3_arith by assumption. divmod.
Qed.

(** The alphabet has 64 distinct characters, none of them the padding. *)
Lemma alphabet_table : forallb alphabet_ok (seq 0 64) = true.
Proof. vm_compute. reflexivity. Qed.

Lemma alphabet_ok_lt n : n < 64 -> alphabet_ok (N.to_nat n) = true.
Proof.
  intros Hn. pose proof alphabet_table as Htable.
  rewrite forallb_forall in Htable. apply Htable.
  apply in_seq. lia.
Qed.

Lemma a2b_b2a n : n < 64 -> a2b (b2a n) = Some n.
Proof.
  intros Hn. pose proof (alphabet_ok_lt n Hn) as Hok.
  unfold alphabet_ok in Hok. rewrite N2Nat.id in Hok.
  destruct (a2b (b2a n)) as [m|]; [|discriminate].
  apply andb_prop in Hok as [Hm _]. apply N.eqb_eq in Hm. congruence.
Qed.

Lemma b2a_not_pad n : n < 64 -> Ascii.eqb (b2a n) pad = false.
Proof.
  intros Hn. pose proof (alphabet_ok_lt n Hn) as Hok.
  unfold alphabet_ok in Hok. rewrite N2Nat.id in Hok.
  destruct (a2b (b2a n)) as [m|]; [|discriminate].
  apply andb_prop in Hok as [_ Hp]. apply negb_true_iff in Hp. exact Hp.
Qed.

Lemma byte_lt (a : byte) : Byte.to_N a < 256.
Proof. pose proof (Byte.to_N_bounded a). lia. Qed.

(** Lists of bytes, three at a time. *)
Lemma list_ind3 {A} (P : list A -> Prop) :
  P [] -> (forall a, P [a]) -> (forall a b, P [a; b]) ->
  (forall a b c rest, P rest -> P (a :: b :: c :: rest)) ->
  forall l, P l.
Proof.
  intros H0 H1 H2 H3.
  fix IH 1. intros [|a [|b [|c rest]]].
  - exact H0.
  - apply H1.
  - apply H2.
  - apply H3, IH.
Qed.

Lemma b64encode_group a b c rest :
  b64encode (a :: b :: c :: rest) =
  String (b2a (sextet0 (Byte.to_N a)))
    (String (b2a (sextet1 (Byte.to_N a) (Byte.to_N b)))
       (String (b2a (sextet2 (Byte.to_N b) (Byte.to_N c)))
          (String (b2a (sextet3 (Byte.to_N c))) (b64encode rest)))).
Proof. reflexivity. Qed.

Ltac bound :=
  first [ apply byte_lt | reflexivity | apply sextet3_lt
        | apply sextet0_lt; bound | apply sextet1_lt; bound
        | apply sextet2_lt; bound ].

Ltac decode_step :=
  repeat first
    [ rewrite a2b_b2a by bound | rewrite b2a_not_pad by bound
    | rewrite octet0_sextets by bound | rewrite octet1_sextets by bound
    | rewrite octet2_sextets by bound | rewrite Byte.of_to_N ];
  cbn [mbind option_bind].

Lemma b64decode_b64encode bs : b64decode (b64encode bs) = Some bs.
Proof.
  induction bs as [|a|a b|a b c rest IH] using list_ind3.
  - reflexivity.
  - cbn [b64encode b64decode]. do 3 decode_step. reflexivity.
  - cbn [b64encode b64decode]. do 3 decode_step.
    change (Ascii.eqb pad pad) with true. cbn iota. do 3 decode_step.
    reflexivity.
  - rewrite b64encode_group. cbn [b64decode]. do 6 decode_step.
    rewrite IH. reflexivity.
Qed.

End Base64Facts.

(** ** The closed forms are what the code computes *)

Lemma M_bind_run {A B} (m : M A) (f : A -> M B) (w : World) :
  (m ≫= f) w =
  match m w with
  | (Done a, w') => f a w'
  | (Exited code, w') => (Exited code, w')
  end.
Proof. reflexivity. Qed.

Lemma M_ret_run {A} (a : A) (w : World) : (mret a : M A) w = (Done a, w).
Proof. reflexivity. Qed.

Lemma print_stderr_run (s : string) (w : World) :
  print_stderr s w =
  (Done tt,
   {| stderr := stderr w ++ [s +:+ nl]; stdout := stdout w; files := files w;
      rendered := rendered w; posted := posted w |}).
Proof. reflexivity. Qed.

Lemma stderr_write_run (s : string) (w : World) :
  stderr_write s w =
  (Done tt,
   {| stderr := stderr w ++ [s]; stdout := stdout w; files := files w;
      rendered := rendered w; posted := posted w |}).
Proof. reflexivity. Qed.

Lemma stdout_write_run (s : string) (w : World) :
  stdout_write s w =
  (Done tt,
   {| stderr := stderr w; stdout := stdout w ++ [s]; files := files w;
      rendered := rendered w; posted := posted w |}).
Proof. reflexivity. Qed.

Lemma sys_exit_run {A} (code : Z) (w : World) :
  sys_exit (A := A) code w = (Exited code, w).
Proof. reflexivity. Qed.

Lemma call_convert_from_path_run (env : Env) (path : string) (w : World) :
  call_convert_from_path env path w =
  (Done (convert_from_path env path),
   {| stderr := stderr w; stdout := stdout w; files := files w;
      rendered := rendered w ++ [path]; posted := posted w |}).
Proof. reflexivity. Qed.

(** One step of a run: the leftmost action of a sequence is performed. *)
Ltac run_step :=
  first [ rewrite M_bind_run | rewrite M_ret_run | rewrite print_stderr_run
        | rewrite stderr_write_run | rewrite stdout_write_run
        | rewrite sys_exit_run | rewrite call_convert_from_path_run ];
  cbv beta iota; cbn [stderr stdout files rendered posted].

Ltac run := repeat run_step.

Lemma numbered_cons (i : nat) (text : pyval) (texts : list pyval) :
  numbered i (text :: texts) = (i, text) :: numbered (S i) texts.
Proof. reflexivity. Qed.

Lemma blocks_cons (i : nat) (text : pyval) (pages : list (nat * pyval)) :
  blocks ((i, text) :: pages) =
  match page_block i text with
  | Some block => block :: blocks pages
  | None => blocks pages
  end.
Proof. reflexivity. Qed.

Lemma blocks_app (pages1 pages2 : list (nat * pyval)) :
  blocks (pages1 ++ pages2) = blocks pages1 ++ blocks pages2.
Proof. apply omap_app. Qed.

Section Runs.

Context (env : Env) (args : Args).

Lemma ocr_image_with_ollama_run (base64_image model server_url : string)
    (w : World) :
  ocr_image_with_ollama env base64_image model server_url w =
  (Done (client_result
           (post env (length (posted w))
              (ollama_request base64_image model server_url))),
   {| stderr :=
        stderr w ++
        client_log (post env (length (posted w))
                      (ollama_request base64_image model server_url));
      stdout := stdout w; files := files w; rendered := rendered w;
      posted := posted w ++ [ollama_request base64_image model server_url] |}).
Proof.
  unfold ocr_image_with_ollama, client_result, client_log.
  rewrite M_bind_run. unfold requests_post.
  fold (ollama_request base64_image model server_url).
  fold (response_text
          (post env (length (posted w))
             (ollama_request base64_image model server_url))).
  destruct (response_text _) as [e|text].
  - rewrite M_bind_run. reflexivity.
  - rewrite M_ret_run, app_nil_r. reflexivity.
Qed.

Lemma process_pages_run (total : nat) (images : list Image) :
  forall (i : nat) (all_text : list string) (w : World),
  process_pages env args total i images all_text w =
  let atts := attempts env args (length (posted w)) images in
  (Done (all_text ++ blocks (numbered i (map client_result atts))),
   {| stderr := stderr w ++ pages_log total i atts; stdout := stdout w;
      files := files w; rendered := rendered w;
      posted := posted w ++ map (page_request args) images |}).
Proof.
  induction images as [|image rest IH]; intros i all_text w.
  - cbn. rewrite !app_nil_r. destruct w; reflexivity.
  - cbn [process_pages attempts map pages_log]. fold (page_request args image).
    set (att := post env (length (posted w)) (page_request args image)).
    rewrite numbered_cons, blocks_cons. unfold page_block, page_log.
    run. rewrite ocr_image_with_ollama_run. fold (page_request args image).
    cbn [stderr stdout files rendered posted]. fold att. cbv beta iota.
    destruct (truthy (client_result att)); run; rewrite IH;
      cbn [stderr stdout files rendered posted];
      rewrite length_app, Nat.add_1_r; cbn [length];
      rewrite ?app_nil_r, <- !app_assoc; reflexivity.
Qed.

Lemma main_result_missing :
  path_exists env (pdf_file args) = false ->
  main_result env args initial =
  (Exited 1,
   {| stderr :=
        [("Error: File '" +:+ path_text env (pdf_file args) +:+ "' not found")
           +:+ nl];
      stdout := []; files := ∅; rendered := []; posted := [] |}).
Proof.
  intros Hmissing. unfold main_result. rewrite Hmissing. reflexivity.
Qed.

Lemma main_result_render_error (e : string) :
  path_exists env (pdf_file args) = true ->
  convert_from_path env (pdf_file args) = Raised e ->
  main_result env args initial =
  (Exited 1,
   {| stderr := ["Converting PDF to images..." +:+ nl;
                 ("Error converting PDF: " +:+ e) +:+ nl];
      stdout := []; files := ∅; rendered := [pdf_file args];
      posted := [] |}).
Proof.
  intros Hexists Hrender. unfold main_result, convert_pdf_to_images.
  rewrite Hexists. cbn [negb]. run. rewrite Hrender. run. reflexivity.
Qed.

Lemma main_result_ok (images : list Image) :
  path_exists env (pdf_file args) = true ->
  convert_from_path env (pdf_file args) = Returned images ->
  main_result env args initial =
  (Done (final_text env args images),
   {| stderr :=
        ["Converting PDF to images..." +:+ nl;
         ("Processing " +:+ pretty (length images) +:+ " page(s)...") +:+ nl]
          ++ pages_log (length images) 1 (attempts env args 0 images);
      stdout := []; files := ∅; rendered := [pdf_file args];
      posted := map (page_request args) images |}).
Proof.
  intros Hexists Hrender. unfold main_result, convert_pdf_to_images.
  rewrite Hexists. cbn [negb]. run. rewrite Hrender. run.
  rewrite process_pages_run. run. reflexivity.
Qed.

End Runs.

(** ** [main] after [main_result] *)

Lemma main_run (host : Host) (env : Env) (args : Args) (w : World) :
  main host env (Parsed args) w =
  match main_result env args w with
  | (Done result, w') => delivered host args result w'
  | (Exited code, w') => (Exited code, w')
  end.
Proof.
  unfold main, parse_args. run.
  destruct (main_result env args w) as [[result|code] w']; [|reflexivity].
  unfold delivered, unhandled, write_file, print_stdout.
  destruct (output_file args) as [path|]; run.
  - destruct (host_open host path) as [e|[]]; [reflexivity|].
    destruct (host_write host path result) as [e|[]]; reflexivity.
  - destruct (host_print host result) as [e|[]]; reflexivity.
Qed.

(** The end of [main] returns exactly when the sink takes the result; it
    sends no request and calls no renderer. *)
Lemma exit_status_delivered (host : Host) (args : Args) (result : string)
    (w : World) :
  exit_status (delivered host args result w) =
  if accepts host args result then 0%Z else 1%Z.
Proof.
  unfold delivered, accepts.
  destruct (output_file args) as [path|].
  - destruct (host_open host path) as [e|[]]; [reflexivity|].
    destruct (host_write host path result) as [e|[]]; reflexivity.
  - destruct (host_print host result) as [e|[]]; reflexivity.
Qed.

Lemma posted_delivered (host : Host) (args : Args) (result : string)
    (w : World) :
  posted (delivered host args result w).2 = posted w.
Proof.
  unfold delivered.
  destruct (output_file args) as [path|].
  - destruct (host_open host path) as [e|[]]; [reflexivity|].
    destruct (host_write host path result) as [e|[]]; reflexivity.
  - destruct (host_print host result) as [e|[]]; reflexivity.
Qed.

Lemma rendered_delivered (host : Host) (args : Args) (result : string)
    (w : World) :
  rendered (delivered host args result w).2 = rendered w.
Proof.
  unfold delivered.
  destruct (output_file args) as [path|].
  - destruct (host_open host path) as [e|[]]; [reflexivity|].
    destruct (host_write host path result) as [e|[]]; reflexivity.
  - destruct (host_print host result) as [e|[]]; reflexivity.
Qed.

(** It prints at most one line more to [stderr]: the confirmation, or the
    traceback of the write that failed. *)
Lemma stderr_delivered (host : Host) (args : Args) (result : string)
    (w : World) :
  stderr (delivered host args result w).2 = stderr w \/
  (exists path, output_file args = Some path /\
     accepts host args result = true /\
     stderr (delivered host args result w).2 =
       stderr w ++ [("Output written to " +:+ path) +:+ nl]) \/
  (exists e, accepts host args result = false /\
     stderr (delivered host args result w).2 =
       stderr w ++ ["Traceback (most recent call last):" +:+ nl
                      +:+ host_traceback host e]).
Proof.
  unfold delivered, accepts.
  destruct (output_file args) as [path|].
  - destruct (host_open host path) as [e|[]]; [right; right; eauto|].
    destruct (host_write host path result) as [e|[]];
      [right; right; eauto | right; left; eauto].
  - destruct (host_print host result) as [e|[]];
      [right; right; eauto | left; reflexivity].
Qed.

Lemma stderr_delivered_incl (host : Host) (args : Args) (result : string)
    (w : World) (line : string) :
  In line (stderr w) -> In line (stderr (delivered host args result w).2).
Proof.
  intros Hin.
  destruct (stderr_delivered host args result w)
    as [-> | [(path & _ & _ & ->) | (e & _ & ->)]];
    [exact Hin | apply in_or_app; left; exact Hin
    | apply in_or_app; left; exact Hin].
Qed.

(** ** Lists of pages *)

Lemma length_attempts (env : Env) (args : Args) (images : list Image) :
  forall n, length (attempts env args n images) = length images.
Proof. induction images as [|image rest IH]; intros n; cbn; auto. Qed.

Lemma lookup_attempts (env : Env) (args : Args) (images : list Image) :
  forall (n k : nat) (image : Image),
  images !! k = Some image ->
  attempts env args n images !! k =
  Some (post env (n + k) (page_request args image)).
Proof.
  induction images as [|first rest IH]; intros n k image Hk; [done|].
  destruct k as [|k]; cbn in *.
  - rewrite Nat.add_0_r. congruence.
  - replace (n + S k) with (S n + k) by lia. apply IH, Hk.
Qed.

Lemma attempts_model_server (env : Env) (args args' : Args)
    (images : list Image) :
  model args = model args' -> server args = server args' ->
  forall n, attempts env args n images = attempts env args' n images.
Proof.
  intros Hmodel Hserver.
  induction images as [|image rest IH]; intros n; cbn; [done|].
  unfold page_request. rewrite Hmodel, Hserver, IH. reflexivity.
Qed.

Lemma length_numbered (i : nat) (texts : list pyval) :
  length (numbered i texts) = length texts.
Proof.
  unfold numbered. rewrite length_zip_with, length_seq. lia.
Qed.

(** The blocks are the truthy pages, rendered. *)
Lemma blocks_filter_map (pages : list (nat * pyval)) :
  blocks pages =
  map (fun p => "--- Page " +:+ pretty p.1 +:+ " ---" +:+ nl
                  +:+ py_str p.2 +:+ nl)
    (filter (fun p => truthy p.2 = true) pages).
Proof.
  induction pages as [|[i text] rest IH]; [reflexivity|].
  rewrite blocks_cons, filter_cons. unfold page_block. cbn [fst snd].
  destruct (truthy text) eqn:Htruth.
  - rewrite decide_True by done. cbn. rewrite IH. reflexivity.
  - rewrite decide_False by done. exact IH.
Qed.

(** A page without a block can be left out. *)
Lemma blocks_without (k : nat) (texts : list pyval) :
  forall i,
  (forall j text, texts !! j = Some text -> i + j = k ->
                  page_block k text = None) ->
  blocks (numbered i texts) =
  blocks (filter (fun p => p.1 <> k) (numbered i texts)).
Proof.
  induction texts as [|text rest IH]; intros i Hk; [reflexivity|].
  rewrite numbered_cons, filter_cons. cbn [fst].
  assert (Hrest : blocks (numbered (S i) rest) =
                  blocks (filter (fun p => p.1 <> k) (numbered (S i) rest))).
  { apply IH. intros j t Hj Hij. apply (Hk (S j) t); [exact Hj | lia]. }
  destruct (decide (i <> k)) as [Hne|Heq].
  - rewrite !blocks_cons, Hrest. reflexivity.
  - assert (i = k) as -> by lia.
    rewrite blocks_cons, (Hk 0 text) by (done || lia). exact Hrest.
Qed.

(** The warning of a page without text is in the log. *)
Lemma pages_log_warning (total : nat) (atts : list (raises Response)) :
  forall (i k : nat) (att : raises Response),
  atts !! k = Some att ->
  truthy (client_result att) = false ->
  In (page_warning (i + k)) (pages_log total i atts).
Proof.
  induction atts as [|first rest IH]; intros i k att Hk Hfalse; [done|].
  cbn [pages_log]. apply in_or_app.
  destruct k as [|k]; cbn in Hk.
  - left. injection Hk as ->. unfold page_log. rewrite Hfalse, Nat.add_0_r.
    apply in_or_app. right. apply in_or_app. right. left. reflexivity.
  - right. replace (i + S k) with (S i + k) by lia. eauto.
Qed.

Lemma pages_log_error (total : nat) (atts : list (raises Response)) :
  forall (i k : nat) (att : raises Response) (line : string),
  atts !! k = Some att ->
  In line (client_log att) ->
  In line (pages_log total i atts).
Proof.
  induction atts as [|first rest IH]; intros i k att line Hk Hline; [done|].
  cbn [pages_log]. apply in_or_app.
  destruct k as [|k]; cbn in Hk.
  - left. injection Hk as ->. unfold page_log.
    apply in_or_app. right. apply in_or_app. left. exact Hline.
  - right. eauto.
Qed.

(** A failed request: the client logs the error and returns [None]. *)
Lemma http_failure_raised (att : raises Response) :
  http_failure att = true -> exists e, response_text att = Raised e.
Proof.
  unfold http_failure, response_text. destruct att as [e|r]; cbn.
  - eauto.
  - destruct (raise_for_status r) as [e|[]]; cbn; [eauto|discriminate].
Qed.

Lemma lookup_numbered (texts : list pyval) :
  forall (i k : nat) (text : pyval),
  texts !! k = Some text -> numbered i texts !! k = Some (i + k, text).
Proof.
  induction texts as [|first rest IH]; intros i k text Hk; [done|].
  rewrite numbered_cons. destruct k as [|k]; cbn in *.
  - rewrite Nat.add_0_r. congruence.
  - replace (i + S k) with (S i + k) by lia. apply IH, Hk.
Qed.

Lemma numbered_ge (texts : list pyval) :
  forall (i : nat) (p : nat * pyval), p ∈ numbered i texts -> i <= p.1.
Proof.
  induction texts as [|first rest IH]; intros i p Hp.
  - by apply elem_of_nil in Hp.
  - rewrite numbered_cons in Hp. apply elem_of_cons in Hp as [-> | Hp].
    + cbn. lia.
    + apply IH in Hp. lia.
Qed.

Lemma numbered_sorted (P : nat * pyval -> Prop) `{!forall p, Decision (P p)}
    (texts : list pyval) :
  forall i, StronglySorted lt (map fst (filter P (numbered i texts))).
Proof.
  induction texts as [|first rest IH]; intros i; [constructor|].
  rewrite numbered_cons, filter_cons.
  destruct (decide (P (i, first))); [|apply IH].
  cbn [map fst]. constructor; [apply IH|].
  apply Forall_forall. intros n Hn.
  apply list_elem_of_In, in_map_iff in Hn as (q & <- & Hq).
  apply list_elem_of_In, list_elem_of_filter in Hq as [_ Hq].
  apply numbered_ge in Hq. lia.
Qed.


(** ** Two servers that differ at one call *)

Lemma attempts_app (env : Env) (args : Args) (images1 images2 : list Image) :
  forall n,
  attempts env args n (images1 ++ images2) =
  attempts env args n images1 ++
  attempts env args (n + length images1) images2.
Proof.
  induction images1 as [|image rest IH]; intros n; cbn [attempts app length].
  - rewrite Nat.add_0_r. reflexivity.
  - rewrite IH. replace (S n + length rest) with (n + S (length rest)) by lia.
    reflexivity.
Qed.

Lemma pages_log_app (total : nat) (atts1 atts2 : list (raises Response)) :
  forall i,
  pages_log total i (atts1 ++ atts2) =
  pages_log total i atts1 ++ pages_log total (i + length atts1) atts2.
Proof.
  induction atts1 as [|att rest IH]; intros i; cbn [pages_log app length].
  - rewrite Nat.add_0_r. reflexivity.
  - rewrite IH, <- app_assoc.
    replace (S i + length rest) with (i + S (length rest)) by lia.
    reflexivity.
Qed.

Lemma numbered_app (texts1 texts2 : list pyval) :
  forall i,
  numbered i (texts1 ++ texts2) =
  numbered i texts1 ++ numbered (i + length texts1) texts2.
Proof.
  induction texts1 as [|text rest IH]; intros i.
  - cbn [app length]. rewrite Nat.add_0_r. reflexivity.
  - cbn [app length]. rewrite !numbered_cons, IH.
    replace (S i + length rest) with (i + S (length rest)) by lia.
    reflexivity.
Qed.

Lemma attempts_agree (env1 env2 : Env) (args : Args) (k : nat)
    (images : list Image) :
  (forall n req, n <> k -> post env1 n req = post env2 n req) ->
  forall n, k < n \/ n + length images <= k ->
  attempts env1 args n images = attempts env2 args n images.
Proof.
  intros Hagree.
  induction images as [|image rest IH]; intros n Hn; [reflexivity|].
  cbn [attempts length] in *. rewrite Hagree by lia. rewrite IH by lia.
  reflexivity.
Qed.

(** Membership in a list written with [++] and [::]. *)
Ltac in_list :=
  match goal with
  | |- In _ (_ ++ _) =>
      apply in_or_app; first [ left; in_list | right; in_list ]
  | |- In _ (_ :: _) => first [ left; reflexivity | right; in_list ]
  end.

(** * The claims *)




(** C2. A document of two pages whose first page is read as "Hello" and
    whose second page is read as the empty string gives the result
    ["--- Page 1 ---\nHello\n"], with no block for page 2. On a host that
    takes the write, that string is the content of the output file, or
    what [print] writes without [--output], and the run ends with status
    0. *)
Theorem C2_two_pages (host : Host) (env : Env) (args : Args)
    (image1 image2 : Image) :
  path_exists env (pdf_file args) = true ->
  convert_from_path env (pdf_file args) = Returned [image1; image2] ->
  client_result (post env 0 (page_request args image1)) = PyStr "Hello" ->
  client_result (post env 1 (page_request args image2)) = PyStr "" ->
  (main_result env args initial).1 = Done hello_page /\
  (forall path, output_file args = Some path ->
     host_open host path = Returned tt ->
     host_write host path hello_page = Returned tt ->
     files (main host env (Parsed args) initial).2 !! path = Some hello_page /\
     exit_status (main host env (Parsed args) initial) = 0%Z) /\
  (output_file args = None ->
     host_print host hello_page = Returned tt ->
     stdout (main host env (Parsed args) initial).2 = [hello_page +:+ nl] /\
     exit_status (main host env (Parsed args) initial) = 0%Z).
Proof.
  intros Hexists Hrender Hpage1 Hpage2.
  assert (Hresult : final_text env args [image1; image2] = hello_page).
  { unfold final_text, page_texts. cbn [attempts map].
    rewrite Hpage1, Hpage2. reflexivity. }
  rewrite main_run.
  rewrite (main_result_ok env args _ Hexists Hrender), Hresult.
  split; [reflexivity|]. unfold delivered. split.
  - intros path -> -> ->. cbn [snd files]. split; [|reflexivity].
    apply lookup_insert_eq.
  - intros -> ->. split; reflexivity.
Qed.

Lemma C2_two_pages_witness :
  (main_result empty_env (sample_args None) initial).1 = Done hello_page /\
  stdout (main sample_host empty_env (Parsed (sample_args None)) initial).2
    = [hello_page +:+ nl] /\
  files (main sample_host empty_env (Parsed (sample_args (Some "out.txt")))
           initial).2 !! "out.txt" = Some hello_page.
Proof.
  destruct (C2_two_pages sample_host empty_env (sample_args None)
              {| png := ["M"%byte; "a"%byte; "n"%byte] |}
              {| png := ["M"%byte] |} eq_refl eq_refl eq_refl eq_refl)
    as (Hresult & _ & Hstdout).
  destruct (C2_two_pages sample_host empty_env (sample_args (Some "out.txt"))
              {| png := ["M"%byte; "a"%byte; "n"%byte] |}
              {| png := ["M"%byte] |} eq_refl eq_refl eq_refl eq_refl)
    as (_ & Hfile & _).
  split; [exact Hresult|]. split.
  - exact (proj1 (Hstdout eq_refl eq_refl)).
  - exact (proj1 (Hfile "out.txt" eq_refl eq_refl eq_refl)).
Defined.
(** C3, as stated: a request that fails in transport or is answered with a
    non-success status gives no block, and the run still ends
    successfully. Both parts fail. The server of [redirect_env] answers the
    request of page 1 with status 304 and a JSON object: the client prints
    no error and returns the text, and page 1 has its block. On the host
    without the directory of the output file, the run whose second request
    gets status 500 ends with status 1. *)
Lemma C3_status_304_and_failed_write :
  (exists r : Response,
     post redirect_env 0
       (page_request (sample_args None)
          {| png := ["M"%byte; "a"%byte; "n"%byte] |}) = Returned r /\
     status_code r = 304%Z) /\
  ocr_image_with_ollama redirect_env "TWFu" default_model default_server
    initial =
  (Done (PyStr "Hello"),
   {| stderr := []; stdout := []; files := ∅; rendered := [];
      posted := [ollama_request "TWFu" default_model default_server] |}) /\
  (main_result redirect_env (sample_args None) initial).1 = Done hello_page /\
  http_failure (post failing_env 1
                  (page_request (sample_args None) {| png := ["M"%byte] |}))
    = true /\
  exit_status (main strict_host failing_env
                 (Parsed (sample_args (Some "nodir/out.txt"))) initial)
    = 1%Z.
Proof.
  split; [eexists; split; reflexivity|].
  repeat split; vm_compute; reflexivity.
Qed.

(** The requests that fail: a transport error, or a status that
    [raise_for_status] rejects, which is a status from 400 to 599. *)
Lemma http_failure_status (att : raises Response) :
  (exists e, att = Raised e) \/
  (exists r, att = Returned r /\ (400 <= status_code r < 600)%Z) ->
  http_failure att = true.
Proof.
  intros [[e ->] | (r & -> & Hstatus)]; [reflexivity|].
  unfold http_failure, raise_for_status.
  destruct ((400 <=? status_code r)%Z && (status_code r <? 500)%Z) eqn:H4;
    [reflexivity|].
  destruct ((500 <=? status_code r)%Z && (status_code r <? 600)%Z) eqn:H5;
    [reflexivity|].
  apply andb_false_iff in H4, H5. lia.
Qed.

(** C3, amended. When the call for page k+1 fails in transport, or the
    server answers it with a status from 400 to 599 (the statuses that
    [raise_for_status] rejects), the client prints an error to [stderr] and
    returns [None] instead of raising; the pipeline is not aborted: the run
    still sends the request of every page, also of those after the failed
    one, and its result is the one the other pages alone give (no block for
    the failed page). The run ends with exit status 0 when the host takes
    the final write of the result. *)
Theorem C3_failed_request (host : Host) (env : Env) (args : Args)
    (images : list Image) (k : nat) (image : Image) :
  path_exists env (pdf_file args) = true ->
  convert_from_path env (pdf_file args) = Returned images ->
  images !! k = Some image ->
  (exists e, post env k (page_request args image) = Raised e) \/
  (exists r, post env k (page_request args image) = Returned r /\
             (400 <= status_code r < 600)%Z) ->
  (exists e : string,
     (forall w : World, length (posted w) = k ->
        ocr_image_with_ollama env (image_to_base64 image) (model args)
          (server args) w =
        (Done PyNone,
         {| stderr := stderr w ++ [("Error calling Ollama API: " +:+ e) +:+ nl];
            stdout := stdout w; files := files w; rendered := rendered w;
            posted := posted w ++ [page_request args image] |})) /\
     In (("Error calling Ollama API: " +:+ e) +:+ nl)
        (stderr (main host env (Parsed args) initial).2)) /\
  posted (main host env (Parsed args) initial).2 =
    map (page_request args) images /\
  (main_result env args initial).1 =
    Done (String.concat nl
            (blocks (filter (fun p => p.1 <> S k)
                       (numbered 1 (page_texts env args images))))) /\
  (accepts host args (final_text env args images) = true ->
   exit_status (main host env (Parsed args) initial) = 0%Z).
Proof.
  intros Hexists Hrender Hk Hfail. apply http_failure_status in Hfail.
  destruct (http_failure_raised _ Hfail) as [e He].
  pose proof (lookup_attempts env args images 0 k image Hk) as Hatt.
  cbn [Nat.add] in Hatt.
  rewrite main_run, (main_result_ok env args images Hexists Hrender).
  split; [exists e; split|split; [|split]].
  - intros w Hw. rewrite ocr_image_with_ollama_run.
    fold (page_request args image). rewrite Hw.
    unfold client_result, client_log. rewrite He. reflexivity.
  - apply stderr_delivered_incl. cbn [stderr]. right. right.
    apply (pages_log_error _ _ 1 k _ _ Hatt).
    unfold client_log. rewrite He. left. reflexivity.
  - rewrite posted_delivered. reflexivity.
  - cbn [fst]. unfold final_text. f_equal. f_equal. apply blocks_without.
    intros j text Hj Hjk. assert (j = k) as -> by lia.
    unfold page_texts in Hj. rewrite list_lookup_fmap, Hatt in Hj.
    injection Hj as <-. unfold client_result, page_block.
    rewrite He. reflexivity.
  - intros Haccepts. rewrite exit_status_delivered, Haccepts. reflexivity.
Qed.

Lemma C3_failed_request_witness :
  (400 <= status_code error_response < 600)%Z /\
  posted (main sample_host first_fails_env (Parsed (sample_args None))
            initial).2 =
    map (page_request (sample_args None)) sample_images /\
  (main_result first_fails_env (sample_args None) initial).1 =
    Done ("--- Page 2 ---" +:+ nl +:+ "World" +:+ nl) /\
  exit_status (main sample_host first_fails_env (Parsed (sample_args None))
                 initial) = 0%Z.
Proof.
  assert (Hstatus : (400 <= status_code error_response < 600)%Z)
    by (cbn; lia).
  split; [exact Hstatus|].
  destruct (C3_failed_request sample_host first_fails_env (sample_args None)
              sample_images 0 {| png := ["M"%byte; "a"%byte; "n"%byte] |}
              eq_refl eq_refl eq_refl
              (or_intror (ex_intro _ error_response (conj eq_refl Hstatus))))
    as (_ & Hposted & Hresult & Hexit).
  split; [exact Hposted|]. split; [exact Hresult|]. exact (Hexit eq_refl).
Defined.

(** C4. When the POST returns a response that [raise_for_status] accepts
    and whose body parses as a JSON object, the client returns the value of
    the ["response"] field of that object, and the empty string when the
    object has no such field. *)
Theorem C4_response_field (env : Env) (base64_image model server_url : string)
    (w : World) (r : Response) (d : gmap string pyval) :
  post env (length (posted w))
    (ollama_request base64_image model server_url) = Returned r ->
  raise_for_status r = Returned tt ->
  json r = Returned (BodyDict d) ->
  (ocr_image_with_ollama env base64_image model server_url w).1 =
  Done (match d !! "response" with
        | Some text => text
        | None => PyStr ""
        end).
Proof.
  intros Hpost Hstatus Hjson. rewrite ocr_image_with_ollama_run. cbn [fst].
  unfold client_result, response_text. rewrite Hpost. cbn.
  rewrite Hstatus. cbn. rewrite Hjson. reflexivity.
Qed.

Lemma C4_response_field_witness :
  (ocr_image_with_ollama empty_env "TWFu" default_model default_server
     initial).1 = Done (PyStr "Hello") /\
  (ocr_image_with_ollama omitted_env "TQ==" default_model default_server
     {| stderr := []; stdout := []; files := ∅; rendered := [];
        posted := [ollama_request "TWFu" default_model default_server] |}).1
  = Done (PyStr "").
Proof.
  split.
  - exact (C4_response_field empty_env "TWFu" default_model default_server
             initial (ok_response {["response" := PyStr "Hello"]})
             {["response" := PyStr "Hello"]} eq_refl eq_refl eq_refl).
  - exact (C4_response_field omitted_env "TQ==" default_model default_server
             {| stderr := []; stdout := []; files := ∅; rendered := [];
                posted := [ollama_request "TWFu" default_model
                             default_server] |}
             (ok_response ∅) ∅ eq_refl eq_refl eq_refl).
Defined.

(** C5. Every call of the client sends exactly one request: a POST to the
    server URL whose JSON body has exactly the four keys [model], [prompt],
    [stream] and [images], holding the model name, the fixed instruction,
    [False] and the list of the one encoded image, with the header
    [Content-Type: application/json]. *)
Theorem C5_request_body (env : Env) (base64_image model server_url : string)
    (w : World) :
  exists req : Request,
    posted (ocr_image_with_ollama env base64_image model server_url w).2 =
      posted w ++ [req] /\
    req_method req = "POST" /\
    req_url req = server_url /\
    req_headers req = {["Content-Type" := "application/json"]} /\
    dom (req_json req) = {["model"; "prompt"; "stream"; "images"]} /\
    req_json req !! "model" = Some (VStr model) /\
    req_json req !! "prompt" =
      Some (VStr "Extract and return all text from this image. Provide only the text content without any additional commentary.") /\
    req_json req !! "stream" = Some (VBool false) /\
    req_json req !! "images" = Some (VList [base64_image]).
Proof.
  exists (ollama_request base64_image model server_url).
  rewrite ocr_image_with_ollama_run. cbn [snd posted].
  split; [reflexivity|]. split; [reflexivity|]. split; [reflexivity|].
  split; [reflexivity|]. split.
  - unfold ollama_request. cbn [req_json].
    rewrite !dom_insert_L, dom_empty_L. set_solver.
  - unfold ollama_request. cbn [req_json]. repeat split.
Qed.

(** C6. When the input path does not name an existing file, the program
    prints one error to [stderr] and exits with status 1; the renderer was
    not called, no request was sent, nothing was written to [stdout] and no
    file was written. *)
Theorem C6_missing_input (host : Host) (env : Env) (args : Args) :
  path_exists env (pdf_file args) = false ->
  exit_status (main host env (Parsed args) initial) = 1%Z /\
  stderr (main host env (Parsed args) initial).2 =
    [("Error: File '" +:+ path_text env (pdf_file args) +:+ "' not found")
       +:+ nl] /\
  rendered (main host env (Parsed args) initial).2 = [] /\
  posted (main host env (Parsed args) initial).2 = [] /\
  stdout (main host env (Parsed args) initial).2 = [] /\
  files (main host env (Parsed args) initial).2 = ∅.
Proof.
  intros Hmissing.
  rewrite main_run, (main_result_missing env args Hmissing).
  repeat split.
Qed.

Lemma C6_missing_input_witness :
  path_exists empty_env (pdf_file missing_args) = false /\
  exit_status (main sample_host empty_env (Parsed missing_args) initial) = 1%Z /\
  posted (main sample_host empty_env (Parsed missing_args) initial).2 = [] /\
  stdout (main sample_host empty_env (Parsed missing_args) initial).2 = [] /\
  files (main sample_host empty_env (Parsed missing_args) initial).2 = ∅.
Proof.
  split; [reflexivity|].
  destruct (C6_missing_input sample_host empty_env missing_args eq_refl)
    as (Hexit & _ & _ & Hposted & Hstdout & Hfiles).
  auto.
Defined.

(** C7, as stated: whatever the pages give, the run still exits
    successfully. On the host without the directory of the output file the
    run over the two-page document, whose second page comes back with the
    empty string, ends with status 1. *)
Lemma C7_failed_write_exits_1 :
  client_result (post empty_env 1
                   (page_request (sample_args (Some "nodir/out.txt"))
                      {| png := ["M"%byte] |})) = PyStr "" /\
  exit_status (main strict_host empty_env
                 (Parsed (sample_args (Some "nodir/out.txt"))) initial)
    = 1%Z.
Proof. split; vm_compute; reflexivity. Qed.

(** C7, amended. On a rendered document the pipeline is not aborted,
    whatever the pages give: it reaches its end with a result, and the run
    ends with exit status 0 when the host takes the final write of that
    result. A page for which the server returns [{"response": ""}], or an
    object without the field, adds no block to the result (the result is
    the one the other pages alone give) and has its warning, which names
    the page, printed to [stderr]. *)
Theorem C7_empty_page (host : Host) (env : Env) (args : Args)
    (images : list Image) :
  path_exists env (pdf_file args) = true ->
  convert_from_path env (pdf_file args) = Returned images ->
  (main_result env args initial).1 = Done (final_text env args images) /\
  (accepts host args (final_text env args images) = true ->
   exit_status (main host env (Parsed args) initial) = 0%Z) /\
  forall (k : nat) (image : Image) (r : Response) (d : gmap string pyval),
    images !! k = Some image ->
    post env k (page_request args image) = Returned r ->
    raise_for_status r = Returned tt ->
    json r = Returned (BodyDict d) ->
    d !! "response" = Some (PyStr "") \/ d !! "response" = None ->
    In (("Warning: No text extracted from page " +:+ pretty (S k)) +:+ nl)
       (stderr (main host env (Parsed args) initial).2) /\
    (main_result env args initial).1 =
      Done (String.concat nl
              (blocks (filter (fun p => p.1 <> S k)
                         (numbered 1 (page_texts env args images))))).
Proof.
  intros Hexists Hrender.
  rewrite main_run, (main_result_ok env args images Hexists Hrender).
  split; [reflexivity|]. split.
  - intros Haccepts. rewrite exit_status_delivered, Haccepts. reflexivity.
  - intros k image r d Hk Hpost Hstatus Hjson Hfield.
    pose proof (lookup_attempts env args images 0 k image Hk) as Hatt.
    cbn [Nat.add] in Hatt.
    assert (Htext : client_result (post env k (page_request args image))
                    = PyStr "").
    { unfold client_result, response_text. rewrite Hpost. cbn.
      rewrite Hstatus. cbn. rewrite Hjson. cbn.
      destruct Hfield as [-> | ->]; reflexivity. }
    split.
    + apply stderr_delivered_incl. cbn [stderr]. right. right.
      apply (pages_log_warning _ _ 1 k _ Hatt). rewrite Htext.
      reflexivity.
    + cbn [fst]. unfold final_text. f_equal. f_equal. apply blocks_without.
      intros j text Hj Hjk. assert (j = k) as -> by lia.
      unfold page_texts in Hj. rewrite list_lookup_fmap, Hatt in Hj.
      injection Hj as <-. rewrite Htext. reflexivity.
Qed.

Lemma C7_empty_page_witness :
  exit_status (main sample_host empty_env (Parsed (sample_args None))
                 initial) = 0%Z /\
  In (("Warning: No text extracted from page " +:+ "2") +:+ nl)
     (stderr (main sample_host empty_env (Parsed (sample_args None))
                initial).2) /\
  In (("Warning: No text extracted from page " +:+ "2") +:+ nl)
     (stderr (main sample_host omitted_env (Parsed (sample_args None))
                initial).2).
Proof.
  destruct (C7_empty_page sample_host empty_env (sample_args None)
              sample_images eq_refl eq_refl) as (_ & Hexit & Hpages).
  destruct (C7_empty_page sample_host omitted_env (sample_args None)
              sample_images eq_refl eq_refl) as (_ & _ & Hpages').
  split; [exact (Hexit eq_refl)|]. split.
  - exact (proj1 (Hpages 1 {| png := ["M"%byte] |}
                    (ok_response {["response" := PyStr ""]})
                    {["response" := PyStr ""]}
                    eq_refl eq_refl eq_refl eq_refl (or_introl eq_refl))).
  - exact (proj1 (Hpages' 1 {| png := ["M"%byte] |} (ok_response ∅) ∅
                    eq_refl eq_refl eq_refl eq_refl (or_intror eq_refl))).
Defined.

(** C8. For a document of N pages the result holds at most N blocks. The
    blocks are those of the pages whose text is true (for a text: not
    empty), in the order of the pages; the block of page i, counted from 1,
    is ["--- Page i ---\n" + text + "\n"], and the blocks are joined with
    ["\n"], which leaves a blank line between two of them. *)
Theorem C8_page_blocks (env : Env) (args : Args) (images : list Image) :
  path_exists env (pdf_file args) = true ->
  convert_from_path env (pdf_file args) = Returned images ->
  let texts := page_texts env args images in
  let kept :=
    filter (fun p => truthy p.2 = true) (zip (seq 1 (length images)) texts) in
  (main_result env args initial).1 =
    Done (String.concat nl
            (map (fun p => "--- Page " +:+ pretty p.1 +:+ " ---" +:+ nl
                             +:+ py_str p.2 +:+ nl) kept)) /\
  length texts = length images /\
  length kept <= length images /\
  StronglySorted lt (map fst kept) /\
  (forall (k : nat) (text : pyval), texts !! k = Some text ->
     ((S k, text) ∈ kept <-> truthy text = true)) /\
  (forall s : string, truthy (PyStr s) = true <-> s <> "") /\
  truthy PyNone = false.
Proof.
  intros Hexists Hrender texts kept.
  assert (Hlen : length texts = length images).
  { unfold texts, page_texts. rewrite length_map. apply length_attempts. }
  assert (Hkept : kept = filter (fun p => truthy p.2 = true)
                           (numbered 1 texts)).
  { unfold kept, numbered. rewrite Hlen. reflexivity. }
  split; [|split; [exact Hlen|split; [|split; [|split; [|split]]]]].
  - rewrite (main_result_ok env args images Hexists Hrender). cbn [fst].
    unfold final_text. fold texts. rewrite blocks_filter_map, Hkept.
    reflexivity.
  - rewrite Hkept, <- Hlen, <- (length_numbered 1 texts).
    apply length_filter.
  - rewrite Hkept. apply numbered_sorted.
  - intros k text Hk. rewrite Hkept, list_elem_of_filter. cbn [snd].
    split; [intros [Htruth _]; exact Htruth|].
    intros Htruth. split; [exact Htruth|].
    apply list_elem_of_lookup. exists k.
    apply (lookup_numbered texts 1 k text Hk).
  - intros s. cbn. rewrite negb_true_iff. apply String.eqb_neq.
  - reflexivity.
Qed.

Lemma C8_page_blocks_witness :
  (main_result empty_env (sample_args None) initial).1 = Done hello_page /\
  (main_result failing_env (sample_args None) initial).1 = Done hello_page.
Proof.
  split.
  - exact (proj1 (C8_page_blocks empty_env (sample_args None) sample_images
                    eq_refl eq_refl)).
  - exact (proj1 (C8_page_blocks failing_env (sample_args None) sample_images
                    eq_refl eq_refl)).
Defined.

(** C9. The image encoder is a function of the PNG bytes of the image, and
    it loses nothing: decoding the base64 text it returns gives back exactly
    the PNG byte stream, so two images are encoded alike exactly when their
    PNG byte streams are equal. *)
Theorem C9_image_round_trip (image : Image) :
  Base64.b64decode (image_to_base64 image) = Some (png image) /\
  forall image' : Image,
    image_to_base64 image = image_to_base64 image' <-> png image = png image'.
Proof.
  split.
  - apply Base64Facts.b64decode_b64encode.
  - intros image'. unfold image_to_base64. split.
    + intros Heq.
      pose proof (Base64Facts.b64decode_b64encode (png image)) as H1.
      pose proof (Base64Facts.b64decode_b64encode (png image')) as H2.
      rewrite Heq in H1. congruence.
    + intros ->. reflexivity.
Qed.

(** C10. Two runs over the same document whose servers differ only at the
    call for page k+1, which fails in the one (the client returns [None])
    and succeeds with the empty string in the other, have the same result,
    the same exit status, the same standard output and the same files, and
    both print the warning of that page; their [stderr] differ by nothing
    but the one line in which the client reports its error. *)
Theorem C10_failure_or_empty (host : Host) (env1 env2 : Env) (args : Args)
    (images : list Image) (k : nat) (image : Image) (e : string) :
  path_exists env1 (pdf_file args) = true ->
  path_exists env2 (pdf_file args) = true ->
  convert_from_path env1 (pdf_file args) = Returned images ->
  convert_from_path env2 (pdf_file args) = Returned images ->
  (forall n req, n <> k -> post env1 n req = post env2 n req) ->
  images !! k = Some image ->
  response_text (post env1 k (page_request args image)) = Raised e ->
  response_text (post env2 k (page_request args image)) =
    Returned (PyStr "") ->
  (main_result env1 args initial).1 = (main_result env2 args initial).1 /\
  exit_status (main host env1 (Parsed args) initial) = exit_status (main host env2 (Parsed args) initial) /\
  stdout (main host env1 (Parsed args) initial).2 = stdout (main host env2 (Parsed args) initial).2 /\
  files (main host env1 (Parsed args) initial).2 = files (main host env2 (Parsed args) initial).2 /\
  In (("Warning: No text extracted from page " +:+ pretty (S k)) +:+ nl)
     (stderr (main host env1 (Parsed args) initial).2) /\
  In (("Warning: No text extracted from page " +:+ pretty (S k)) +:+ nl)
     (stderr (main host env2 (Parsed args) initial).2) /\
  exists before after : list string,
    stderr (main host env2 (Parsed args) initial).2 = before ++ after /\
    stderr (main host env1 (Parsed args) initial).2 =
      before ++ [("Error calling Ollama API: " +:+ e) +:+ nl] ++ after.
Proof.
  intros Hexists1 Hexists2 Hrender1 Hrender2 Hagree Hk Hnone Hempty.
  pose proof (lookup_lt_Some _ _ _ Hk) as Hlt.
  pose proof (take_drop_middle _ _ _ Hk) as Hsplit.
  pose proof (length_take_le images k ltac:(lia)) as Htake.
  set (heads := take k images) in *. set (tails := drop (S k) images) in *.
  set (att1 := post env1 k (page_request args image)) in *.
  set (att2 := post env2 k (page_request args image)) in *.
  assert (Hheads : attempts env1 args 0 heads = attempts env2 args 0 heads).
  { apply (attempts_agree env1 env2 args k heads Hagree). lia. }
  assert (Htails : attempts env1 args (S k) tails
                   = attempts env2 args (S k) tails).
  { apply (attempts_agree env1 env2 args k tails Hagree). lia. }
  assert (Hatts1 : attempts env1 args 0 images =
                   attempts env2 args 0 heads ++
                   att1 :: attempts env2 args (S k) tails).
  { rewrite <- Hsplit, attempts_app, Hheads. cbn [attempts Nat.add].
    rewrite Htake, Htails. reflexivity. }
  assert (Hatts2 : attempts env2 args 0 images =
                   attempts env2 args 0 heads ++
                   att2 :: attempts env2 args (S k) tails).
  { rewrite <- Hsplit, attempts_app. cbn [attempts Nat.add].
    rewrite Htake. reflexivity. }
  assert (Hv1 : client_result att1 = PyNone).
  { unfold client_result. rewrite Hnone. reflexivity. }
  assert (Hv2 : client_result att2 = PyStr "").
  { unfold client_result. rewrite Hempty. reflexivity. }
  assert (Htext : final_text env1 args images = final_text env2 args images).
  { unfold final_text, page_texts. rewrite Hatts1, Hatts2.
    rewrite !map_app, !numbered_app, !blocks_app. cbn [map].
    rewrite !numbered_cons, !blocks_cons, Hv1, Hv2. reflexivity. }
  set (log0 := ["Converting PDF to images..." +:+ nl;
                ("Processing " +:+ pretty (length images) +:+ " page(s)...")
                  +:+ nl]).
  set (progress := ("Processing page " +:+ pretty (S k) +:+ "/"
                      +:+ pretty (length images) +:+ "...") +:+ nl).
  set (logA := pages_log (length images) 1 (attempts env2 args 0 heads)).
  set (logB := pages_log (length images) (S (S k))
                 (attempts env2 args (S k) tails)).
  assert (Hlog1 : pages_log (length images) 1 (attempts env1 args 0 images) =
                  logA ++ [progress]
                    ++ [("Error calling Ollama API: " +:+ e) +:+ nl]
                    ++ [page_warning (S k)] ++ logB).
  { rewrite Hatts1, pages_log_app, length_attempts, Htake.
    cbn [pages_log Nat.add]. unfold page_log, client_log.
    rewrite Hv1, Hnone. cbn [truthy]. rewrite <- !app_assoc. reflexivity. }
  assert (Hlog2 : pages_log (length images) 1 (attempts env2 args 0 images) =
                  logA ++ [progress] ++ [page_warning (S k)] ++ logB).
  { rewrite Hatts2, pages_log_app, length_attempts, Htake.
    cbn [pages_log Nat.add]. unfold page_log, client_log.
    rewrite Hv2, Hempty. cbn [truthy]. rewrite <- !app_assoc. reflexivity. }
  rewrite !main_run.
  rewrite (main_result_ok env1 args images Hexists1 Hrender1).
  rewrite (main_result_ok env2 args images Hexists2 Hrender2).
  fold log0. rewrite Hlog1, Hlog2, Htext.
  fold (page_warning (S k)).
  split; [reflexivity|].
  unfold delivered, uncaught.
  destruct (output_file args) as [path|].
  - destruct (host_open host path) as [e1|[]];
      [|destruct (host_write host path (final_text env2 args images))
          as [e1|[]]];
      cbn [exit_status fst snd stderr stdout files];
      (repeat (split; [reflexivity|]));
      (split; [in_list|]); (split; [in_list|]).
    + exists (log0 ++ logA ++ [progress]),
             ([page_warning (S k)] ++ logB ++
              ["Traceback (most recent call last):" +:+ nl
                 +:+ host_traceback host e1]).
      rewrite <- !app_assoc. split; reflexivity.
    + exists (log0 ++ logA ++ [progress]),
             ([page_warning (S k)] ++ logB ++
              ["Traceback (most recent call last):" +:+ nl
                 +:+ host_traceback host e1]).
      rewrite <- !app_assoc. split; reflexivity.
    + exists (log0 ++ logA ++ [progress]),
             ([page_warning (S k)] ++ logB ++
              [("Output written to " +:+ path) +:+ nl]).
      rewrite <- !app_assoc. split; reflexivity.
  - destruct (host_print host (final_text env2 args images)) as [e1|[]];
      cbn [exit_status fst snd stderr stdout files];
      (repeat (split; [reflexivity|]));
      (split; [in_list|]); (split; [in_list|]).
    + exists (log0 ++ logA ++ [progress]),
             ([page_warning (S k)] ++ logB ++
              ["Traceback (most recent call last):" +:+ nl
                 +:+ host_traceback host e1]).
      rewrite <- !app_assoc. split; reflexivity.
    + exists (log0 ++ logA ++ [progress]), ([page_warning (S k)] ++ logB).
      rewrite <- !app_assoc. split; reflexivity.
Qed.

Lemma C10_failure_or_empty_witness :
  (main_result failing_env (sample_args None) initial).1 =
    (main_result empty_env (sample_args None) initial).1 /\
  stdout (main sample_host failing_env (Parsed (sample_args None)) initial).2 =
    stdout (main sample_host empty_env (Parsed (sample_args None)) initial).2.
Proof.
  assert (Hagree : forall (n : nat) (req : Request), n <> 1 ->
            post failing_env n req = post empty_env n req).
  { intros [|[|n]] req Hn; [reflexivity|congruence|reflexivity]. }
  destruct (C10_failure_or_empty sample_host failing_env empty_env
              (sample_args None)
              sample_images 1 {| png := ["M"%byte] |}
              "500 Server Error: Internal Server Error for url: http://10.147.17.205:11434/api/generate"
              eq_refl eq_refl eq_refl eq_refl Hagree eq_refl eq_refl eq_refl)
    as (Hresult & _ & Hstdout & _).
  split; assumption.
Defined.

(** * Further properties *)

(** ** A run from any world *)

(** The texts of the pages when [n] requests were sent before. *)
Lemma main_result_from (env : Env) (args : Args) (w : World) :
  main_result env args w =
  if path_exists env (pdf_file args) then
    match convert_from_path env (pdf_file args) with
    | Raised e =>
        (Exited 1,
         {| stderr := stderr w ++
                      ["Converting PDF to images..." +:+ nl;
                       ("Error converting PDF: " +:+ e) +:+ nl];
            stdout := stdout w; files := files w;
            rendered := rendered w ++ [pdf_file args];
            posted := posted w |})
    | Returned images =>
        (Done (String.concat nl
                 (blocks (numbered 1
                    (map client_result
                       (attempts env args (length (posted w)) images))))),
         {| stderr := stderr w ++
                      ["Converting PDF to images..." +:+ nl;
                       ("Processing " +:+ pretty (length images)
                          +:+ " page(s)...") +:+ nl] ++
                      pages_log (length images) 1
                        (attempts env args (length (posted w)) images);
            stdout := stdout w; files := files w;
            rendered := rendered w ++ [pdf_file args];
            posted := posted w ++ map (page_request args) images |})
    end
  else
    (Exited 1,
     {| stderr := stderr w ++
                  [("Error: File '" +:+ path_text env (pdf_file args)
                      +:+ "' not found") +:+ nl];
        stdout := stdout w; files := files w; rendered := rendered w;
        posted := posted w |}).
Proof.
  unfold main_result, convert_pdf_to_images.
  destruct (path_exists env (pdf_file args)); cbn [negb]; run;
    [|reflexivity].
  destruct (convert_from_path env (pdf_file args)) as [e|images]; run.
  - rewrite <- app_assoc. reflexivity.
  - rewrite process_pages_run. cbv zeta.
    cbn [stderr stdout files rendered posted]. run.
    rewrite <- !app_assoc. reflexivity.
Qed.

(** X1. A renderer that raises is fatal: the run prints the progress line
    and the renderer's error, and exits with status 1 after one call of the
    renderer, with no request sent, nothing on [stdout] and no file. *)
Theorem render_failure_is_fatal (host : Host) (env : Env) (args : Args)
    (e : string) :
  path_exists env (pdf_file args) = true ->
  convert_from_path env (pdf_file args) = Raised e ->
  exit_status (main host env (Parsed args) initial) = 1%Z /\
  stderr (main host env (Parsed args) initial).2 =
    ["Converting PDF to images..." +:+ nl;
     ("Error converting PDF: " +:+ e) +:+ nl] /\
  rendered (main host env (Parsed args) initial).2 = [pdf_file args] /\
  posted (main host env (Parsed args) initial).2 = [] /\
  stdout (main host env (Parsed args) initial).2 = [] /\
  files (main host env (Parsed args) initial).2 = ∅.
Proof.
  intros Hexists Hrender.
  rewrite main_run, (main_result_render_error env args e Hexists Hrender).
  repeat split.
Qed.

Lemma render_failure_is_fatal_witness :
  path_exists broken_env "scan.pdf" = true /\
  exit_status (main sample_host broken_env
                 (Parsed {| pdf_file := "scan.pdf"; model := default_model;
                            server := default_server;
                            output := Some "out.txt" |})
                 initial) = 1%Z.
Proof.
  split; [reflexivity|].
  exact (proj1 (render_failure_is_fatal sample_host broken_env
                  {| pdf_file := "scan.pdf"; model := default_model;
                     server := default_server; output := Some "out.txt" |}
                  "Unable to get page count." eq_refl eq_refl)).
Defined.


(** X3. Whatever the call of [requests.post] gives, the client returns to
    its caller: it does not exit, it records exactly one request, it leaves
    [stdout], the files and the renderer alone, and it prints either nothing
    or, when it returns [None] after an exception, one line that starts
    with ["Error calling Ollama API: "]. *)
Theorem client_never_aborts (env : Env)
    (base64_image model server_url : string) (w : World) :
  exists (text : pyval) (log : list string),
    ocr_image_with_ollama env base64_image model server_url w =
    (Done text,
     {| stderr := stderr w ++ log; stdout := stdout w; files := files w;
        rendered := rendered w;
        posted := posted w ++
                  [ollama_request base64_image model server_url] |}) /\
    (log = [] \/
     text = PyNone /\
     exists e, log = [("Error calling Ollama API: " +:+ e) +:+ nl]).
Proof.
  rewrite ocr_image_with_ollama_run.
  set (att := post env (length (posted w))
                (ollama_request base64_image model server_url)).
  exists (client_result att), (client_log att).
  split; [reflexivity|].
  unfold client_result, client_log.
  destruct (response_text att) as [e|text]; [right|left]; eauto.
Qed.

(** X4. A response with an accepted status whose body is not JSON makes
    [response.json()] raise: the client prints that error and returns
    [None]. *)
Theorem unparsable_body_gives_none (env : Env)
    (base64_image model server_url : string) (w : World) (r : Response)
    (e : string) :
  post env (length (posted w))
    (ollama_request base64_image model server_url) = Returned r ->
  raise_for_status r = Returned tt ->
  json r = Raised e ->
  ocr_image_with_ollama env base64_image model server_url w =
  (Done PyNone,
   {| stderr := stderr w ++ [("Error calling Ollama API: " +:+ e) +:+ nl];
      stdout := stdout w; files := files w; rendered := rendered w;
      posted := posted w ++
                [ollama_request base64_image model server_url] |}).
Proof.
  intros Hpost Hstatus Hjson. rewrite ocr_image_with_ollama_run.
  unfold client_result, client_log, response_text. rewrite Hpost. cbn.
  rewrite Hstatus. cbn. rewrite Hjson. reflexivity.
Qed.

Lemma unparsable_body_gives_none_witness :
  (ocr_image_with_ollama
     (single_env (Returned (body_response (Raised "Expecting value"))))
     "TQ==" default_model default_server initial).1 = Done PyNone.
Proof.
  exact (f_equal fst
           (unparsable_body_gives_none
              (single_env (Returned (body_response (Raised "Expecting value"))))
              "TQ==" default_model default_server initial
              (body_response (Raised "Expecting value")) "Expecting value"
              eq_refl eq_refl eq_refl)).
Defined.

(** X5. A JSON body that is not an object (an array, a string, a number)
    has no [get]: the [AttributeError] is caught like any other exception,
    the client prints it and returns [None]. *)
Theorem non_object_body_gives_none (env : Env)
    (base64_image model server_url : string) (w : World) (r : Response)
    (type_name : string) :
  post env (length (posted w))
    (ollama_request base64_image model server_url) = Returned r ->
  raise_for_status r = Returned tt ->
  json r = Returned (BodyOther type_name) ->
  ocr_image_with_ollama env base64_image model server_url w =
  (Done PyNone,
   {| stderr := stderr w ++
                [("Error calling Ollama API: " +:+
                  "'" +:+ type_name +:+ "' object has no attribute 'get'")
                   +:+ nl];
      stdout := stdout w; files := files w; rendered := rendered w;
      posted := posted w ++
                [ollama_request base64_image model server_url] |}).
Proof.
  intros Hpost Hstatus Hjson. rewrite ocr_image_with_ollama_run.
  unfold client_result, client_log, response_text. rewrite Hpost. cbn.
  rewrite Hstatus. cbn. rewrite Hjson. reflexivity.
Qed.

Lemma non_object_body_gives_none_witness :
  (ocr_image_with_ollama
     (single_env (Returned (body_response (Returned (BodyOther "list")))))
     "TQ==" default_model default_server initial).1 = Done PyNone.
Proof.
  exact (f_equal fst
           (non_object_body_gives_none
              (single_env
                 (Returned (body_response (Returned (BodyOther "list")))))
              "TQ==" default_model default_server initial
              (body_response (Returned (BodyOther "list"))) "list"
              eq_refl eq_refl eq_refl)).
Defined.

(** X6. On a rendered document the run sends exactly one request per page,
    in the order of the pages and whatever the server answers: request
    number k goes to the configured server with the configured model, and
    the one text in its [images] list decodes to the PNG bytes of page
    k+1. *)
Theorem one_request_per_page (host : Host) (env : Env) (args : Args)
    (images : list Image) :
  path_exists env (pdf_file args) = true ->
  convert_from_path env (pdf_file args) = Returned images ->
  length (posted (main host env (Parsed args) initial).2) = length images /\
  forall (k : nat) (image : Image), images !! k = Some image ->
    exists (req : Request) (b : string),
      posted (main host env (Parsed args) initial).2 !! k = Some req /\
      req_url req = server args /\
      req_json req !! "model" = Some (VStr (model args)) /\
      req_json req !! "images" = Some (VList [b]) /\
      Base64.b64decode b = Some (png image).
Proof.
  intros Hexists Hrender.
  assert (Hposted : posted (main host env (Parsed args) initial).2 =
                    map (page_request args) images).
  { rewrite main_run, (main_result_ok env args images Hexists Hrender).
    rewrite posted_delivered. reflexivity. }
  rewrite Hposted. split; [apply length_map|].
  intros k image Hk.
  exists (page_request args image), (image_to_base64 image).
  split.
  - change (map (page_request args) images)
      with (page_request args <$> images).
    rewrite list_lookup_fmap, Hk. reflexivity.
  - repeat split. apply Base64Facts.b64decode_b64encode.
Qed.

Lemma one_request_per_page_witness :
  length (posted (main sample_host failing_env (Parsed (sample_args None)) initial).2) = 2.
Proof.
  exact (proj1 (one_request_per_page sample_host failing_env (sample_args None)
                  sample_images eq_refl eq_refl)).
Defined.

(** ** The lines of [stderr] *)

Lemma append_nl_inj (a b : string) : a +:+ nl = b +:+ nl -> a = b.
Proof.
  revert b. induction a as [|c a IH]; intros [|d b] Heq; cbn in Heq.
  - reflexivity.
  - injection Heq as _ Heq. destruct b; discriminate.
  - injection Heq as _ Heq. destruct a; discriminate.
  - injection Heq as -> Heq. f_equal. apply IH, Heq.
Qed.

Lemma page_warning_inj (i j : nat) : page_warning i = page_warning j -> i = j.
Proof.
  unfold page_warning. intros Heq.
  apply append_nl_inj, (inj (String.app _)) in Heq.
  apply (inj pretty), Heq.
Qed.

(** The warnings in the log of the pages are those of the pages without
    text. *)
Lemma pages_log_warning_inv (total j : nat) (atts : list (raises Response)) :
  forall i,
  In (page_warning j) (pages_log total i atts) ->
  exists (k : nat) (att : raises Response),
    atts !! k = Some att /\ i + k = j /\ truthy (client_result att) = false.
Proof.
  induction atts as [|att rest IH]; intros i Hin; [destruct Hin|].
  cbn [pages_log] in Hin. apply in_app_or in Hin as [Hin | Hin].
  - unfold page_log in Hin.
    apply in_app_or in Hin as [[Heq | []] | Hin]; [discriminate Heq|].
    apply in_app_or in Hin as [Hin | Hin].
    + unfold client_log in Hin.
      destruct (response_text att); [|destruct Hin].
      destruct Hin as [Heq | []]. discriminate Heq.
    + destruct (truthy (client_result att)) eqn:Htruth; [destruct Hin|].
      destruct Hin as [Heq | []]. apply page_warning_inj in Heq.
      exists 0, att. split; [reflexivity|]. split; [lia | exact Htruth].
  - apply IH in Hin as (k & a & Hk & Hik & Htruth).
    exists (S k), a. split; [exact Hk|]. split; [lia | exact Htruth].
Qed.

(** X7. On a rendered document the warning of page k+1 is on [stderr]
    exactly when the client's text for that page is false ([None], the
    empty string, or another false value): a page that has a block has no
    warning. *)
Theorem warning_iff_no_text (host : Host) (env : Env) (args : Args)
    (images : list Image) (k : nat) :
  path_exists env (pdf_file args) = true ->
  convert_from_path env (pdf_file args) = Returned images ->
  In (("Warning: No text extracted from page " +:+ pretty (S k)) +:+ nl)
     (stderr (main host env (Parsed args) initial).2) <->
  exists image : Image,
    images !! k = Some image /\
    truthy (client_result (post env k (page_request args image))) = false.
Proof.
  intros Hexists Hrender. fold (page_warning (S k)).
  assert (Hlog : In (page_warning (S k))
                    (stderr (main host env (Parsed args) initial).2)
                 <-> In (page_warning (S k))
                       (pages_log (length images) 1
                          (attempts env args 0 images))).
  { rewrite main_run, (main_result_ok env args images Hexists Hrender).
    set (w' := {| stderr := _ |}).
    assert (Hw' : In (page_warning (S k)) (stderr w') <->
                  In (page_warning (S k))
                     (pages_log (length images) 1
                        (attempts env args 0 images))).
    { unfold w'. cbn [stderr app In]. split.
      - intros [Heq | [Heq | Hin]];
          [discriminate Heq | discriminate Heq | exact Hin].
      - intros Hin. right. right. exact Hin. }
    rewrite <- Hw'. split; [|apply stderr_delivered_incl].
    destruct (stderr_delivered host args (final_text env args images) w')
      as [-> | [(path & _ & _ & ->) | (e & _ & ->)]]; [tauto| |];
      rewrite in_app_iff; cbn [In];
      (intros [Hin | [Heq | []]]; [exact Hin | discriminate Heq]). }
  rewrite Hlog. split.
  - intros Hin. apply pages_log_warning_inv in Hin
      as (j & att & Hj & Hjk & Htruth).
    assert (j = k) as -> by lia.
    pose proof (lookup_lt_Some _ _ _ Hj) as Hlt.
    rewrite length_attempts in Hlt.
    destruct (lookup_lt_is_Some_2 images k Hlt) as [image Himage].
    exists image. split; [exact Himage|].
    pose proof (lookup_attempts env args images 0 k image Himage) as Hatt.
    cbn [Nat.add] in Hatt. rewrite Hatt in Hj. injection Hj as <-.
    exact Htruth.
  - intros (image & Himage & Htruth).
    pose proof (lookup_attempts env args images 0 k image Himage) as Hatt.
    cbn [Nat.add] in Hatt.
    apply (pages_log_warning _ _ 1 k _ Hatt Htruth).
Qed.

Lemma warning_iff_no_text_witness :
  In (("Warning: No text extracted from page " +:+ "2") +:+ nl)
     (stderr (main sample_host failing_env (Parsed (sample_args None)) initial).2) /\
  ~ In (("Warning: No text extracted from page " +:+ "1") +:+ nl)
       (stderr (main sample_host failing_env (Parsed (sample_args None)) initial).2).
Proof.
  split.
  - apply (proj2 (warning_iff_no_text sample_host failing_env (sample_args None)
                    sample_images 1 eq_refl eq_refl)).
    exists {| png := ["M"%byte] |}. split; reflexivity.
  - intros Hin.
    apply (proj1 (warning_iff_no_text sample_host failing_env (sample_args None)
                    sample_images 0 eq_refl eq_refl)) in Hin
      as (image & Himage & Htruth).
    injection Himage as <-. discriminate Htruth.
Defined.

(** ** What a run leaves alone *)

Ltac extends := repeat rewrite <- app_assoc; eexists; reflexivity.

Lemma prefix_stderr_delivered (host : Host) (args : Args) (result : string)
    (w : World) :
  stderr w `prefix_of` stderr (delivered host args result w).2.
Proof.
  destruct (stderr_delivered host args result w)
    as [-> | [(path & _ & _ & ->) | (e & _ & ->)]];
    [reflexivity | extends | extends].
Qed.

(** X8. Started in any world, a run only adds: what [stderr] and [stdout]
    held before is still there, in front of what the run wrote, the earlier
    calls of the renderer and of the server stay recorded, and every file
    other than the one named by [--output] keeps its content. This holds
    for the runs that exit with an error as well. *)
Theorem main_only_appends (host : Host) (env : Env) (args : Args)
    (w : World) :
  stderr w `prefix_of` stderr (main host env (Parsed args) w).2 /\
  stdout w `prefix_of` stdout (main host env (Parsed args) w).2 /\
  rendered w `prefix_of` rendered (main host env (Parsed args) w).2 /\
  posted w `prefix_of` posted (main host env (Parsed args) w).2 /\
  forall p : string, output_file args <> Some p ->
    files (main host env (Parsed args) w).2 !! p = files w !! p.
Proof.
  rewrite main_run, main_result_from.
  destruct (path_exists env (pdf_file args)).
  - destruct (convert_from_path env (pdf_file args)) as [e|images].
    + cbn [snd stderr stdout files rendered posted].
      split; [extends|]. split; [reflexivity|]. split; [extends|].
      split; reflexivity.
    + set (result := String.concat nl _). set (w' := {| stderr := _ |}).
      split.
      { etransitivity; [|apply prefix_stderr_delivered].
        unfold w'. cbn [stderr]. extends. }
      rewrite rendered_delivered, posted_delivered.
      unfold w' at 2 3. cbn [rendered posted].
      unfold delivered, uncaught.
      destruct (output_file args) as [path|].
      * destruct (host_open host path) as [e|[]];
          [|destruct (host_write host path result) as [e|[]]];
          cbn [snd stdout files]; unfold w'; cbn [stdout files];
          (split; [reflexivity|]); (split; [extends|]);
          (split; [extends|]); intros p Hp;
          try reflexivity; apply lookup_insert_ne; congruence.
      * destruct (host_print host result) as [e|[]];
          cbn [snd stdout files]; unfold w'; cbn [stdout files];
          (split; [first [reflexivity | extends]|]); (split; [extends|]);
          (split; [extends|]); reflexivity.
  - cbn [snd stderr stdout files rendered posted].
    split; [extends|]. repeat split; reflexivity.
Qed.

(** X9. With [--output], on a host where the file opens and the write
    returns, a run that reaches the end replaces whatever the file at that
    path held by the result ([open(path, 'w')] truncates), writes nothing
    to [stdout] and ends with status 0. *)
Theorem output_file_overwritten (host : Host) (env : Env) (args : Args)
    (w : World) (path result : string) :
  output_file args = Some path ->
  (main_result env args w).1 = Done result ->
  host_open host path = Returned tt ->
  host_write host path result = Returned tt ->
  files (main host env (Parsed args) w).2 = <[path := result]> (files w) /\
  files (main host env (Parsed args) w).2 !! path = Some result /\
  stdout (main host env (Parsed args) w).2 = stdout w /\
  exit_status (main host env (Parsed args) w) = 0%Z.
Proof.
  intros Hpath Hresult Hopen Hwrite. rewrite main_run.
  rewrite main_result_from in *.
  destruct (path_exists env (pdf_file args)); [|discriminate].
  destruct (convert_from_path env (pdf_file args)) as [e|images];
    [discriminate|].
  cbn [fst] in Hresult. injection Hresult as <-.
  unfold delivered. rewrite Hpath, Hopen, Hwrite.
  cbn [snd files stdout]. split; [reflexivity|].
  split; [apply lookup_insert_eq|]. split; reflexivity.
Qed.

Lemma output_file_overwritten_witness :
  files used_world !! "out.txt" = Some "old" /\
  files (main sample_host empty_env (Parsed (sample_args (Some "out.txt")))
           used_world).2 !! "out.txt" = Some hello_page /\
  stdout (main sample_host empty_env (Parsed (sample_args (Some "out.txt")))
            used_world).2 = ["printed" +:+ nl].
Proof.
  split; [reflexivity|].
  destruct (output_file_overwritten sample_host empty_env
              (sample_args (Some "out.txt")) used_world "out.txt"
              hello_page eq_refl eq_refl eq_refl eq_refl)
    as (_ & Hfile & Hstdout & _).
  split; assumption.
Defined.






(** ** Documents without text *)

Lemma blocks_no_text (texts : list pyval) :
  Forall (fun text => truthy text = false) texts ->
  forall i, blocks (numbered i texts) = [].
Proof.
  induction 1 as [|text rest Htext _ IH]; intros i; [reflexivity|].
  rewrite numbered_cons, blocks_cons. unfold page_block. rewrite Htext.
  apply IH.
Qed.

(** X11. When no page gives a text (the document has no page, or every
    request fails or comes back empty), the result is the empty string. On
    a host that takes the write, the file named by [--output] is written
    empty, or without [--output] standard output receives one empty line,
    and the run ends with status 0. *)
Theorem no_text_gives_empty_output (host : Host) (env : Env) (args : Args)
    (images : list Image) :
  path_exists env (pdf_file args) = true ->
  convert_from_path env (pdf_file args) = Returned images ->
  (forall (k : nat) (image : Image), images !! k = Some image ->
     truthy (client_result (post env k (page_request args image))) = false) ->
  (main_result env args initial).1 = Done "" /\
  (forall path, output_file args = Some path ->
     host_open host path = Returned tt ->
     host_write host path "" = Returned tt ->
     files (main host env (Parsed args) initial).2 = {[path := ""]} /\
     exit_status (main host env (Parsed args) initial) = 0%Z) /\
  (output_file args = None ->
     host_print host "" = Returned tt ->
     stdout (main host env (Parsed args) initial).2 = [nl] /\
     exit_status (main host env (Parsed args) initial) = 0%Z).
Proof.
  intros Hexists Hrender Hpages.
  assert (Htext : final_text env args images = "").
  { unfold final_text. rewrite blocks_no_text; [reflexivity|].
    apply Forall_forall. intros text Htext.
    unfold page_texts in Htext. apply list_elem_of_In in Htext.
    apply in_map_iff in Htext as (att & <- & Hatt).
    apply list_elem_of_In, list_elem_of_lookup in Hatt as [k Hk].
    pose proof (lookup_lt_Some _ _ _ Hk) as Hlt.
    rewrite length_attempts in Hlt.
    destruct (lookup_lt_is_Some_2 images k Hlt) as [image Himage].
    pose proof (lookup_attempts env args images 0 k image Himage) as Hatt.
    cbn [Nat.add] in Hatt. rewrite Hatt in Hk. injection Hk as <-.
    apply (Hpages k image Himage). }
  rewrite main_run, (main_result_ok env args images Hexists Hrender), Htext.
  split; [reflexivity|]. unfold delivered. split.
  - intros path -> -> ->. split; reflexivity.
  - intros -> ->. split; reflexivity.
Qed.

Lemma no_text_gives_empty_output_witness :
  (main_result (single_env (Raised "Connection refused")) (sample_args None)
     initial).1 = Done "" /\
  stdout (main sample_host (single_env (Raised "Connection refused"))
            (Parsed (sample_args None)) initial).2 = [nl].
Proof.
  assert (Hpages : forall (k : nat) (image : Image),
            [ {| png := ["M"%byte] |} ] !! k = Some image ->
            truthy (client_result
                      (post (single_env (Raised "Connection refused")) k
                         (page_request (sample_args None) image))) = false).
  { intros k image _. reflexivity. }
  destruct (no_text_gives_empty_output sample_host
              (single_env (Raised "Connection refused")) (sample_args None)
              [ {| png := ["M"%byte] |} ] eq_refl eq_refl Hpages)
    as (Hresult & _ & Hstdout).
  split; [exact Hresult | exact (proj1 (Hstdout eq_refl eq_refl))].
Defined.

(** ** The shape of the base64 text *)

Lemma b64_char_b2a (n : N) : (n < 64)%N -> b64_char (Base64.b2a n) = true.
Proof.
  intros Hn. unfold b64_char. rewrite Base64Facts.a2b_b2a by exact Hn.
  reflexivity.
Qed.

(** X12. The text sent for a page is four characters for every group of
    three bytes of its PNG data, the last group counted in full: its length
    is 4 * ceil(n / 3), a multiple of four. *)
Theorem image_to_base64_length (image : Image) :
  String.length (image_to_base64 image) =
  4 * ((length (png image) + 2) / 3).
Proof.
  unfold image_to_base64. cbv zeta.
  induction (png image) as [|a|a b|a b c rest IH]
    using Base64Facts.list_ind3.
  - reflexivity.
  - reflexivity.
  - reflexivity.
  - rewrite Base64Facts.b64encode_group. cbn [String.length length].
    rewrite IH.
    replace (S (S (S (length rest))) + 2) with (1 * 3 + (length rest + 2))
      by lia.
    rewrite Nat.div_add_l by lia. lia.
Qed.

(** X13. The text sent for a page is made of the 64 characters of the
    base64 alphabet and of [=] only: it is ASCII, whatever the bytes of the
    PNG data are. *)
Theorem image_to_base64_alphabet (image : Image) :
  Forall (fun c => b64_char c = true)
    (list_ascii_of_string (image_to_base64 image)).
Proof.
  unfold image_to_base64. cbv zeta.
  induction (png image) as [|a|a b|a b c rest IH]
    using Base64Facts.list_ind3.
  - constructor.
  - cbn [Base64.b64encode list_ascii_of_string].
    repeat constructor;
      apply b64_char_b2a;
      first [ apply Base64Facts.sextet0_lt, Base64Facts.byte_lt
            | apply Base64Facts.sextet1_lt; reflexivity ].
  - cbn [Base64.b64encode list_ascii_of_string].
    repeat constructor;
      apply b64_char_b2a;
      first [ apply Base64Facts.sextet0_lt, Base64Facts.byte_lt
            | apply Base64Facts.sextet1_lt, Base64Facts.byte_lt
            | apply Base64Facts.sextet2_lt; reflexivity ].
  - rewrite Base64Facts.b64encode_group. cbn [list_ascii_of_string].
    repeat (constructor; [apply b64_char_b2a|]); [| | | |exact IH].
    + apply Base64Facts.sextet0_lt, Base64Facts.byte_lt.
    + apply Base64Facts.sextet1_lt, Base64Facts.byte_lt.
    + apply Base64Facts.sextet2_lt, Base64Facts.byte_lt.
    + apply Base64Facts.sextet3_lt.
Qed.

(** ** The client on success, and the two sinks *)

(** X14. A response with an accepted status and a JSON object as body is
    taken without a word: the client prints nothing, records its one
    request and returns the value of the field, also when that value is
    JSON's [null] (Python's [None]) or the field is missing. *)
Theorem successful_response_is_silent (env : Env)
    (base64_image model server_url : string) (w : World) (r : Response)
    (d : gmap string pyval) :
  post env (length (posted w))
    (ollama_request base64_image model server_url) = Returned r ->
  raise_for_status r = Returned tt ->
  json r = Returned (BodyDict d) ->
  ocr_image_with_ollama env base64_image model server_url w =
  (Done (default (PyStr "") (d !! "response")),
   {| stderr := stderr w; stdout := stdout w; files := files w;
      rendered := rendered w;
      posted := posted w ++
                [ollama_request base64_image model server_url] |}).
Proof.
  intros Hpost Hstatus Hjson. rewrite ocr_image_with_ollama_run.
  unfold client_result, client_log, response_text. rewrite Hpost. cbn.
  rewrite Hstatus. cbn. rewrite Hjson. cbn. rewrite app_nil_r.
  destruct (d !! "response"); reflexivity.
Qed.

Lemma successful_response_is_silent_witness :
  ocr_image_with_ollama
    (single_env (Returned (ok_response {["response" := PyNone]})))
    "TQ==" default_model default_server initial =
  (Done PyNone,
   {| stderr := []; stdout := []; files := ∅; rendered := [];
      posted := [ollama_request "TQ==" default_model default_server] |}).
Proof.
  exact (successful_response_is_silent
           (single_env (Returned (ok_response {["response" := PyNone]})))
           "TQ==" default_model default_server initial
           (ok_response {["response" := PyNone]}) {["response" := PyNone]}
           eq_refl eq_refl eq_refl).
Defined.

Lemma main_result_same_pipeline (env : Env) (args args' : Args) (w : World) :
  pdf_file args = pdf_file args' -> model args = model args' ->
  server args = server args' ->
  main_result env args w = main_result env args' w.
Proof.
  intros Hpdf Hmodel Hserver. rewrite !main_result_from, <- Hpdf.
  destruct (path_exists env (pdf_file args)); [|reflexivity].
  destruct (convert_from_path env (pdf_file args)) as [e|images];
    [reflexivity|].
  rewrite (attempts_model_server env args args' images Hmodel Hserver).
  assert (Hreq : map (page_request args) images
                 = map (page_request args') images).
  { apply map_ext. intros image. unfold page_request.
    rewrite Hmodel, Hserver. reflexivity. }
  rewrite Hreq. reflexivity.
Qed.

(** X15. An empty [--output] is no [--output]: [if args.output:] is false
    for the empty string, so the run prints its result to [stdout] and
    opens no file; it is the run without the option. *)
Theorem empty_output_path_is_stdout (host : Host) (env : Env) (args : Args)
    (w : World) :
  output args = Some "" ->
  main host env (Parsed args) w =
    main host env (Parsed (with_output args None)) w /\
  files (main host env (Parsed args) w).2 = files w.
Proof.
  intros Hempty.
  assert (Hnone : output_file args = None).
  { unfold output_file. rewrite Hempty. reflexivity. }
  assert (Hsame : main host env (Parsed args) w
                  = main host env (Parsed (with_output args None)) w).
  { rewrite !main_run.
    rewrite (main_result_same_pipeline env (with_output args None) args)
      by reflexivity.
    unfold delivered. rewrite Hnone. reflexivity. }
  split; [exact Hsame|].
  rewrite main_run, main_result_from. unfold delivered. rewrite Hnone.
  destruct (path_exists env (pdf_file args)); [|reflexivity].
  destruct (convert_from_path env (pdf_file args)); [reflexivity|].
  destruct (host_print host _) as [e|[]]; reflexivity.
Qed.

Lemma empty_output_path_is_stdout_witness :
  stdout (main sample_host empty_env (Parsed (sample_args (Some "")))
            initial).2 = [hello_page +:+ nl] /\
  files (main sample_host empty_env (Parsed (sample_args (Some "")))
           initial).2 = ∅.
Proof.
  destruct (empty_output_path_is_stdout sample_host empty_env
              (sample_args (Some "")) initial eq_refl) as [Hsame Hfiles].
  split; [|exact Hfiles].
  rewrite Hsame. vm_compute. reflexivity.
Defined.

(** X16. [--output] changes nothing before the result is written. For a
    run that reaches the end of the pipeline, on a host that takes the
    write to the file and the [print], the run with a file sends the same
    requests as the run without, and its [stderr] is that of the run
    without followed by the one line ["Output written to ..."]. *)
Theorem output_confirmation_is_last (host : Host) (env : Env) (args : Args)
    (path result : string) :
  path <> "" ->
  (main_result env args initial).1 = Done result ->
  host_open host path = Returned tt ->
  host_write host path result = Returned tt ->
  host_print host result = Returned tt ->
  stderr (main host env (Parsed (with_output args (Some path))) initial).2 =
    stderr (main host env (Parsed (with_output args None)) initial).2 ++
    [("Output written to " +:+ path) +:+ nl] /\
  posted (main host env (Parsed (with_output args (Some path))) initial).2 =
    posted (main host env (Parsed (with_output args None)) initial).2 /\
  rendered (main host env (Parsed (with_output args (Some path)))
              initial).2 =
    rendered (main host env (Parsed (with_output args None)) initial).2.
Proof.
  intros Hpath Hresult Hopen Hwrite Hprint.
  rewrite !main_run.
  rewrite (main_result_same_pipeline env (with_output args (Some path)) args)
    by reflexivity.
  rewrite (main_result_same_pipeline env (with_output args None) args)
    by reflexivity.
  rewrite main_result_from in *.
  destruct (path_exists env (pdf_file args)); [|discriminate].
  destruct (convert_from_path env (pdf_file args)) as [e|images];
    [discriminate|].
  cbn [fst] in Hresult. injection Hresult as <-.
  change (length (posted initial)) with 0.
  unfold delivered, output_file, with_output. cbn [output].
  apply String.eqb_neq in Hpath. rewrite Hpath, Hopen, Hwrite, Hprint.
  repeat split.
Qed.

Lemma output_confirmation_is_last_witness :
  "out.txt" <> "" /\
  posted (main sample_host empty_env
            (Parsed (with_output (sample_args None) (Some "out.txt")))
            initial).2 =
  posted (main sample_host empty_env
            (Parsed (with_output (sample_args None) None)) initial).2.
Proof.
  split; [discriminate|].
  apply (output_confirmation_is_last sample_host empty_env (sample_args None)
           "out.txt" hello_page).
  - discriminate.
  - vm_compute. reflexivity.
  - reflexivity.
  - reflexivity.
  - reflexivity.
Defined.
